(** * pynamodb.settings: the Settings singleton and its lookup chain

    A shallow embedding of [pynamodb/settings.py].  The module keeps one
    process-wide [Settings] instance in the class attribute [_settings] of
    [Settings] (through the metaclass [SettingsMeta]), loads an optional
    override file as a Python module and answers attribute lookups from the
    override module first, then from [DEFAULT_SETTINGS], then with [None].

    Python objects that have identity (module objects, [Settings] instances)
    live in heaps indexed by addresses; the interpreter state is threaded
    through a small state-and-exception monad. *)

From stdpp Require Import gmap strings list pretty.
From Stdlib Require Import ZArith Lia.

Open Scope string_scope.

(** ** Python values *)

Definition addr := nat.

(** The values that occur in this module: [None], booleans, integers,
    strings, and references to module objects, to [Settings] instances and
    to botocore sessions. *)
Inductive PyVal :=
| PyNone
| PyBool (b : bool)
| PyInt (n : Z)
| PyStr (s : string)
| PyModule (m : addr)
| PySettings (o : addr)
| PySession (n : nat).

Global Instance PyVal_eq_dec : EqDecision PyVal.
Proof. solve_decision. Defined.

(** Truth value testing ([if v:], [not v]).  Module objects and [Settings]
    instances define neither [__bool__] nor [__len__] (special methods are
    looked up on the type, so [Settings.__getattr__] is not consulted), hence
    they are true. *)
Definition truthy (v : PyVal) : bool :=
  match v with
  | PyNone => false
  | PyBool b => b
  | PyInt n => negb (n =? 0)%Z
  | PyStr s => negb (String.eqb s "")
  | PyModule _ | PySettings _ | PySession _ => true
  end.

(** [isinstance(value, Settings)] *)
Definition isinstance_Settings (v : PyVal) : bool :=
  match v with
  | PySettings _ => true
  | _ => false
  end.

(** [str(v)], as used by [str.format] and the [%s] conversion.  The text of an
    object reference carries the object's address in CPython; only the class
    is kept here. *)
Definition py_str (v : PyVal) : string :=
  match v with
  | PyNone => "None"
  | PyBool true => "True"
  | PyBool false => "False"
  | PyInt n => pretty n
  | PyStr s => s
  | PyModule _ => "<module '__pynamodb_override_settings__'>"
  | PySettings _ => "<pynamodb.settings.Settings object>"
  | PySession _ => "<botocore.session.Session object>"
  end.

(** ** Exceptions and outcomes *)

Inductive Exn :=
| ValueError (msg : string)
| AttributeError (msg : string)
| TypeError (msg : string)
| KeyError (key : string)
| RecursionError
| LoadError (cls : string).   (* whatever executing an override file raises *)

Global Instance Exn_eq_dec : EqDecision Exn.
Proof. solve_decision. Defined.

(** A call returns a value, raises, or never returns because it waits for a
    lock that is held ([Block]). *)
Inductive Outcome (A : Type) :=
| Return (a : A)
| Raise (e : Exn)
| Block.
Arguments Return {A} a.
Arguments Raise {A} e.
Arguments Block {A}.

(** ** The environment of the process *)

(** What the source loader makes of the file at a path: the names the module
    has bound once the file has been executed in it (those the import system
    sets, [__name__], [__file__] and the like, among them), or the exception
    that compiling or executing the file raises. *)
Inductive SourceFile :=
| Defines (defs : gmap string PyVal)
| Fails (e : Exn).

(** The part of the world the module reads and never writes: the interpreter
    version, [os.environ], [os.path.isfile] and the contents of source files.
    [isfile] and [source] are functions of the path value as the code passes
    it on, whatever its type. *)
Record World := {
  version_info : Z * Z;
  environ : gmap string string;
  isfile : PyVal → Outcome bool;
  source : PyVal → SourceFile;
}.

(** ** The interpreter state *)

Inductive LogLevel := INFO | WARNING.

(** A [Settings] instance: its instance dictionary has the one entry
    [_override_settings]. *)
Record SettingsObj := { _override_settings : PyVal }.

Record State := {
  _settings : PyVal;                          (* Settings._settings *)
  _lock : bool;                               (* Settings._lock is held *)
  class_dict : gmap string PyVal;             (* other attributes set on the class *)
  instances : gmap addr SettingsObj;          (* Settings instances, by address *)
  modules : gmap addr (gmap string PyVal);    (* module objects, by address *)
  sys_modules : gmap string addr;             (* sys.modules *)
  sessions : nat;                             (* botocore sessions created so far *)
  log : list (LogLevel * string);             (* records passed to the logger *)
  warnings : list string;                     (* messages passed to warnings.warn *)
}.

Definition set__settings (v : PyVal) (st : State) : State :=
  {| _settings := v; _lock := _lock st; class_dict := class_dict st;
     instances := instances st; modules := modules st;
     sys_modules := sys_modules st; sessions := sessions st;
     log := log st; warnings := warnings st |}.

Definition set__lock (b : bool) (st : State) : State :=
  {| _settings := _settings st; _lock := b; class_dict := class_dict st;
     instances := instances st; modules := modules st;
     sys_modules := sys_modules st; sessions := sessions st;
     log := log st; warnings := warnings st |}.

Definition set_class_dict (d : gmap string PyVal) (st : State) : State :=
  {| _settings := _settings st; _lock := _lock st; class_dict := d;
     instances := instances st; modules := modules st;
     sys_modules := sys_modules st; sessions := sessions st;
     log := log st; warnings := warnings st |}.

Definition set_instances (h : gmap addr SettingsObj) (st : State) : State :=
  {| _settings := _settings st; _lock := _lock st; class_dict := class_dict st;
     instances := h; modules := modules st;
     sys_modules := sys_modules st; sessions := sessions st;
     log := log st; warnings := warnings st |}.

Definition set_modules (h : gmap addr (gmap string PyVal)) (sm : gmap string addr)
    (st : State) : State :=
  {| _settings := _settings st; _lock := _lock st; class_dict := class_dict st;
     instances := instances st; modules := h;
     sys_modules := sm; sessions := sessions st;
     log := log st; warnings := warnings st |}.

Definition set_sessions (n : nat) (st : State) : State :=
  {| _settings := _settings st; _lock := _lock st; class_dict := class_dict st;
     instances := instances st; modules := modules st;
     sys_modules := sys_modules st; sessions := n;
     log := log st; warnings := warnings st |}.

Definition set_log (l : list (LogLevel * string)) (st : State) : State :=
  {| _settings := _settings st; _lock := _lock st; class_dict := class_dict st;
     instances := instances st; modules := modules st;
     sys_modules := sys_modules st; sessions := sessions st;
     log := l; warnings := warnings st |}.

Definition set_warnings (l : list string) (st : State) : State :=
  {| _settings := _settings st; _lock := _lock st; class_dict := class_dict st;
     instances := instances st; modules := modules st;
     sys_modules := sys_modules st; sessions := sessions st;
     log := log st; warnings := l |}.

(** ** The monad of calls *)

Definition M (A : Type) : Type := State → Outcome A * State.

Definition ret {A} (a : A) : M A := λ st, (Return a, st).
Definition raise {A} (e : Exn) : M A := λ st, (Raise e, st).
Definition bind {A B} (m : M A) (k : A → M B) : M B := λ st,
  match m st with
  | (Return a, st') => k a st'
  | (Raise e, st') => (Raise e, st')
  | (Block, st') => (Block, st')
  end.
Definition gets {A} (f : State → A) : M A := λ st, (Return (f st), st).
Definition modify (f : State → State) : M unit := λ st, (Return tt, f st).
Definition lift {A} (o : Outcome A) : M A := λ st, (o, st).

Notation "'let*' x := m 'in' k" := (bind m (λ x, k))
  (at level 10, x name, m at level 100, k at level 200,
   format "'[v' 'let*'  x  :=  m  'in' '/' k ']'").
Notation "m ;;; k" := (bind m (λ _, k))
  (at level 100, k at level 200, right associativity,
   format "'[v' m  ;;; '/' k ']'").

(** [for x in xs: body(x)] *)
Fixpoint for_each {A} (xs : list A) (body : A → M unit) : M unit :=
  match xs with
  | [] => ret tt
  | x :: xs' => body x ;;; for_each xs' body
  end.

(** [with self._lock: body].  [threading.Lock] is not reentrant: acquiring a
    held lock waits.  The lock is released when the block is left, also by an
    exception. *)
Definition with_lock {A} (body : M A) : M A := λ st,
  if _lock st then (Block, st)
  else match body (set__lock true st) with
       | (Block, st') => (Block, st')
       | (r, st') => (r, set__lock false st')
       end.

(** [log.info(msg)] on the module's logger *)
Definition log_info (msg : string) : M unit :=
  modify (λ st, set_log (log st ++ [(INFO, msg)]) st).

(** [warnings.warn(msg)]: the warning is handed to the warnings machinery
    (with the default filters this never raises). *)
Definition warnings_warn (msg : string) : M unit :=
  modify (λ st, set_warnings (warnings st ++ [msg]) st).

(** ** Constants *)

(** The setting names are imported from [pynamodb.constants], which is not
    among the sources; each is taken from the specification's table of
    recognized setting keys. *)

(** Modelled from the spec: [pynamodb.constants.CONNECT_TIMEOUT_SECONDS], the
    key of the network connect timeout. *)
Definition CONNECT_TIMEOUT_SECONDS := "connect_timeout_seconds".

(** Modelled from the spec: [pynamodb.constants.READ_TIMEOUT_SECONDS], the key
    of the network read timeout. *)
Definition READ_TIMEOUT_SECONDS := "read_timeout_seconds".

(** Modelled from the spec: [pynamodb.constants.MAX_RETRY_ATTEMPTS], the key
    of the retry cap. *)
Definition MAX_RETRY_ATTEMPTS := "max_retry_attempts".

(** Modelled from the spec: [pynamodb.constants.MAX_POOL_CONNECTIONS], the key
    of the connection pool size. *)
Definition MAX_POOL_CONNECTIONS := "max_pool_connections".

(** Modelled from the spec: [pynamodb.constants.BASE_BACKOFF_MS], the key of
    the base retry backoff. *)
Definition BASE_BACKOFF_MS := "base_backoff_ms".

(** Modelled from the spec: [pynamodb.constants.REGION], the key of the
    default region. *)
Definition REGION := "region".

(** Modelled from the spec:
    [pynamodb.constants.ALLOW_RATE_LIMITED_SCAN_WITHOUT_CONSUMED_CAPACITY],
    the key of the feature flag. *)
Definition ALLOW_RATE_LIMITED_SCAN_WITHOUT_CONSUMED_CAPACITY :=
  "allow_rate_limited_scan_without_consumed_capacity".

(** A dict display: later entries overwrite earlier ones with an equal key. *)
Definition dict_display (entries : list (string * PyVal)) : gmap string PyVal :=
  foldl (λ d kv, <[kv.1 := kv.2]> d) ∅ entries.

Definition DEFAULT_SETTINGS : gmap string PyVal :=
  dict_display [
    (CONNECT_TIMEOUT_SECONDS, PyInt 15);
    (READ_TIMEOUT_SECONDS, PyInt 30);
    (MAX_RETRY_ATTEMPTS, PyInt 3);
    (MAX_POOL_CONNECTIONS, PyInt 10);
    (BASE_BACKOFF_MS, PyInt 25);
    (REGION, PyStr "us-east-1");
    (ALLOW_RATE_LIMITED_SCAN_WITHOUT_CONSUMED_CAPACITY, PyBool false)
  ].

(** [SettingsMeta.DEFAULT] *)
Definition DEFAULT := "default".

(** ** The module's code *)

Section Program.

(** [OBSOLETE_META_ATTRIBUTES] is imported from [pynamodb.constants], which
    is not among the sources, and the specification does not list the names:
    the list of obsolete option names is a parameter. *)
Variable OBSOLETE_META_ATTRIBUTES : list string.

Variable w : World.

(** [os.getenv(name, default)] *)
Definition getenv (name default : string) : string :=
  match environ w !! name with
  | Some v => v
  | None => default
  end.

(** [os.path.isfile(path)] *)
Definition os_path_isfile (path : PyVal) : M bool := lift (isfile w path).

(** The source loaders behind [_load_module]
    ([SourceFileLoader(name, path).load_module()] and
    [imp.load_source(name, path)]) execute the file in the module registered
    under [name] in [sys.modules]: the module object already registered is
    reused and keeps the names it had, otherwise a new module object is
    created and registered.  When the file raises, no module is registered. *)
Definition exec_source (name : string) (path : PyVal) : M PyVal := λ st,
  match source w path with
  | Fails e => (Raise e, st)
  | Defines defs =>
      match sys_modules st !! name with
      | Some m =>
          let old := default ∅ (modules st !! m) in
          (Return (PyModule m),
           set_modules (<[m := defs ∪ old]> (modules st)) (sys_modules st) st)
      | None =>
          let m := fresh (dom (modules st)) in
          (Return (PyModule m),
           set_modules (<[m := defs]> (modules st))
                       (<[name := m]> (sys_modules st)) st)
      end
  end.

Definition SourceFileLoader_load_module := exec_source.
Definition imp_load_source := exec_source.

(** [sys.version_info >= (3, 3)]: tuples compare lexicographically. *)
Definition version_at_least (v : Z * Z) (major minor : Z) : bool :=
  ((major <? v.1) || ((v.1 =? major) && (minor <=? v.2)))%Z.

Definition _load_module (name : string) (path : PyVal) : M PyVal :=
  if version_at_least (version_info w) 3 3
  then SourceFileLoader_load_module name path
  else imp_load_source name path.

(** Attribute access on the override object.  The constructor stores either
    [None] or a module object in [_override_settings]; attributes are looked
    up in the module's namespace. *)
Definition namespace_of (st : State) (o : PyVal) : gmap string PyVal :=
  match o with
  | PyModule m => default ∅ (modules st !! m)
  | _ => ∅
  end.

(** [hasattr(o, key)] *)
Definition hasattr (o : PyVal) (key : string) : M bool :=
  gets (λ st, bool_decide (is_Some (namespace_of st o !! key))).

(** [getattr(o, key)] *)
Definition getattr (o : PyVal) (key : string) : M PyVal := λ st,
  match namespace_of st o !! key with
  | Some v => (Return v, st)
  | None => (Raise (AttributeError key), st)
  end.

(** [self._override_settings], read on a [Settings] instance.  On an object
    without that entry the read falls into [Settings.__getattr__], which
    reads it again: the recursion limit is hit. *)
Definition get_override (self : addr) : M PyVal := λ st,
  match instances st !! self with
  | Some o => (Return (_override_settings o), st)
  | None => (Raise RecursionError, st)
  end.

(** [self._override_settings = v] *)
Definition set_override (self : addr) (v : PyVal) : M unit :=
  modify (λ st, set_instances (<[self := {| _override_settings := v |}]> (instances st)) st).

(** *** class Settings *)

(** [Settings.__init__] from [os.path.isfile(settings_path)] on, where the
    path is settled. *)
Definition init_from_path (self : addr) (settings_path : PyVal) : M unit :=
  let* is_file := os_path_isfile settings_path in
  if is_file then
    let* m := _load_module "__pynamodb_override_settings__" settings_path in
    set_override self m ;;;
    for_each OBSOLETE_META_ATTRIBUTES (λ meta_attr,
      let* o := get_override self in
      let* has := hasattr o meta_attr in
      if has
      then warnings_warn ("The `" +:+ meta_attr +:+ "` option is no longer supported")
      else ret tt) ;;;
    log_info ("Override settings for pynamo available " +:+ py_str settings_path)
  else
    set_override self PyNone ;;;
    log_info ("Override settings for pynamo not available " +:+ py_str settings_path) ;;;
    log_info "Using Default settings value".

(** The first statement of [Settings.__init__]: a false [settings_path] (the
    default [None], an empty string, ...) is replaced by the environment's
    path. *)
Definition resolve_settings_path (settings_path : PyVal) : PyVal :=
  if negb (truthy settings_path)
  then PyStr (getenv "PYNAMODB_CONFIG" "/etc/pynamodb/global_default_settings.py")
  else settings_path.

(** [Settings.__init__(self, settings_path=None)] *)
Definition Settings___init__ (self : addr) (settings_path : PyVal) : M unit :=
  let settings_path := resolve_settings_path settings_path in
  init_from_path self settings_path.

(** [Settings(settings_path)]: a new object is allocated and initialised.  An
    object whose [__init__] raises is never seen by anyone. *)
Definition Settings_call (settings_path : PyVal) : M PyVal :=
  let* self := gets (λ st, fresh (dom (instances st))) in
  Settings___init__ self settings_path ;;;
  ret (PySettings self).

(** [Settings.__getattr__(self, key)], which Python calls for the attributes
    normal lookup does not find. *)
Definition Settings___getattr__ (self : addr) (key : string) : M PyVal :=
  let* o := get_override self in
  let* found :=
    (if truthy o
     then let* o := get_override self in hasattr o key
     else ret false) in
  if found then
    let* o := get_override self in
    getattr o key
  else if bool_decide (key ∈ dom DEFAULT_SETTINGS) then
    lift (match DEFAULT_SETTINGS !! key with
          | Some v => Return v
          | None => Raise (KeyError key)
          end)
  else ret PyNone.

(** [Settings.get_session(self)]: a new botocore [Session]. *)
Definition get_session (self : addr) : M PyVal :=
  let* n := gets sessions in
  modify (set_sessions (S n)) ;;;
  ret (PySession n).

(** *** class SettingsMeta *)

(** [SettingsMeta.__init__], run once when the class [Settings] is created. *)
Definition SettingsMeta___init__ : M unit :=
  modify (set__settings PyNone) ;;;
  modify (set__lock false).

(** [SettingsMeta.__getattr__(self, key)]; [Settings.default] arrives here.
    [type] has no [__getattr__], so the last line raises [AttributeError]. *)
Definition SettingsMeta___getattr__ (key : string) : M PyVal :=
  if String.eqb key DEFAULT then
    let* settings := gets _settings in
    if truthy settings then ret settings
    else
      with_lock (
        let* s := gets _settings in
        (if negb (truthy s)
         then let* new := Settings_call PyNone in modify (set__settings new)
         else ret tt) ;;;
        gets _settings)
  else raise (AttributeError "__getattr__").

(** [type.__setattr__]: binds a class attribute. *)
Definition type___setattr__ (key : string) (value : PyVal) : M unit :=
  if String.eqb key "_settings" then modify (set__settings value)
  else modify (λ st, set_class_dict (<[key := value]> (class_dict st)) st).

(** [SettingsMeta.__setattr__(self, key, value)]; [Settings.default = value]
    arrives here. *)
Definition SettingsMeta___setattr__ (key : string) (value : PyVal) : M unit :=
  if String.eqb key DEFAULT then
    if negb (isinstance_Settings value)
    then raise (ValueError ("'" +:+ DEFAULT +:+ "' must be an instance of Settings"))
    else with_lock (modify (set__settings value))
  else type___setattr__ key value.

(** *** The module's operations, under the names the specification uses *)

(** [Settings.default] *)
Definition current : M PyVal := SettingsMeta___getattr__ DEFAULT.

(** [Settings.default = value] *)
Definition replace (value : PyVal) : M unit := SettingsMeta___setattr__ DEFAULT value.

Inductive Op :=
| OpGet (self : addr) (key : string)      (* getattr(self, key) through __getattr__ *)
| OpCurrent                               (* Settings.default *)
| OpReplace (value : PyVal)               (* Settings.default = value *)
| OpGetSession (self : addr)              (* self.get_session() *)
| OpNew (settings_path : PyVal).          (* Settings(settings_path) *)

Definition exec_op (op : Op) : M PyVal :=
  match op with
  | OpGet self key => Settings___getattr__ self key
  | OpCurrent => current
  | OpReplace value => replace value ;;; ret PyNone
  | OpGetSession self => get_session self
  | OpNew settings_path => Settings_call settings_path
  end.

(** A sequence of operations by one caller.  An exception is caught by the
    caller, who goes on; a call that waits for ever ends the sequence. *)
Fixpoint exec_ops (ops : list Op) (st : State) : State :=
  match ops with
  | [] => st
  | op :: ops' =>
      match exec_op op st with
      | (Block, st') => st'
      | (_, st') => exec_ops ops' st'
      end
  end.

(** ** Concurrent callers of [Settings.default]

    Each thread evaluating [Settings.default] is at one of the program points
    of [SettingsMeta.__getattr__]; a step of a thread is one access to the
    shared class attributes [_settings] and [_lock], and the interpreter may
    switch threads between any two steps.  The call of the constructor is one
    step: it touches neither [_settings] nor [_lock], which is all the other
    threads read and write. *)
Inductive Thread :=
| AtFastRead                      (* settings = self._settings *)
| AtFastTest (settings : PyVal)   (* if settings: return settings *)
| AtAcquire                       (* with self._lock:  (waiting for the lock) *)
| AtCheck                         (* if not self._settings: *)
| AtConstruct                     (* Settings() *)
| AtAssign (new : PyVal)          (* self._settings = <the new instance> *)
| AtReturn                        (* return self._settings *)
| AtRelease (r : Outcome PyVal)   (* leaving the with block: the lock is released *)
| Done (r : Outcome PyVal).       (* the call has returned or raised *)

(** One step of a thread on the shared state; the number counts the calls of
    the [Settings] constructor.  [None]: the thread cannot move (it waits for
    the lock, or it is done). *)
Definition thread_step (t : Thread) (st : State) (n : nat) : option (Thread * State * nat) :=
  match t with
  | AtFastRead => Some (AtFastTest (_settings st), st, n)
  | AtFastTest settings =>
      Some (if truthy settings then Done (Return settings) else AtAcquire, st, n)
  | AtAcquire =>
      if _lock st then None else Some (AtCheck, set__lock true st, n)
  | AtCheck =>
      Some (if negb (truthy (_settings st)) then AtConstruct else AtReturn, st, n)
  | AtConstruct =>
      match Settings_call PyNone st with
      | (Return new, st') => Some (AtAssign new, st', S n)
      | (Raise e, st') => Some (AtRelease (Raise e), st', S n)
      | (Block, _) => None
      end
  | AtAssign new => Some (AtReturn, set__settings new st, n)
  | AtReturn => Some (AtRelease (Return (_settings st)), st, n)
  | AtRelease r => Some (Done r, set__lock false st, n)
  | Done _ => None
  end.

Record Sys := {
  shared : State;
  threads : list Thread;
  constructions : nat;
}.

(** The scheduler lets thread [i] take a step. *)
Definition step (i : nat) (s : Sys) : option Sys :=
  match threads s !! i with
  | None => None
  | Some t =>
      match thread_step t (shared s) (constructions s) with
      | None => None
      | Some (t', st', n') =>
          Some {| shared := st'; threads := <[i := t']> (threads s); constructions := n' |}
      end
  end.

(** An interleaving is the list of the scheduler's choices; choosing a thread
    that cannot move changes nothing. *)
Fixpoint run (sched : list nat) (s : Sys) : Sys :=
  match sched with
  | [] => s
  | i :: sched' => run sched' (default s (step i s))
  end.

(** [n] threads about to evaluate [Settings.default]. *)
Definition start (n : nat) (st : State) : Sys :=
  {| shared := st; threads := replicate n AtFastRead; constructions := 0 |}.

Definition is_done (t : Thread) : bool :=
  match t with Done _ => true | _ => false end.

Definition all_done (s : Sys) : bool := forallb is_done (threads s).

(** The state right after the class [Settings] has been created: empty heaps
    and a fresh singleton slot. *)
Definition empty_state : State :=
  {| _settings := PyNone; _lock := false; class_dict := ∅;
     instances := ∅; modules := ∅; sys_modules := ∅; sessions := 0;
     log := []; warnings := [] |}.

(** * Vocabulary of the properties *)

(** The text of the warning for an obsolete option. *)
Definition obsolete_warning (meta_attr : string) : string :=
  "The `" +:+ meta_attr +:+ "` option is no longer supported".

Definition override_module_name := "__pynamodb_override_settings__".

(** The loop over [OBSOLETE_META_ATTRIBUTES] in [Settings.__init__]. *)
Definition obsolete_loop (self : addr) (names : list string) : M unit :=
  for_each names (λ meta_attr,
    let* o := get_override self in
    let* has := hasattr o meta_attr in
    if has
    then warnings_warn ("The `" +:+ meta_attr +:+ "` option is no longer supported")
    else ret tt).

(** The obsolete names a namespace binds, in the order of the list. *)
Definition obsolete_present (ns : gmap string PyVal) (names : list string) : list string :=
  filter (λ k, is_Some (ns !! k)) names.

(** The module object the loader executes the override file in, and the
    namespace it has afterwards. *)
Definition loaded_module (st : State) : addr :=
  match sys_modules st !! override_module_name with
  | Some m => m
  | None => fresh (dom (modules st))
  end.

Definition loaded_namespace (defs : gmap string PyVal) (st : State) : gmap string PyVal :=
  match sys_modules st !! override_module_name with
  | Some m => defs ∪ default ∅ (modules st !! m)
  | None => defs
  end.

(** The state a successful construction from an override file leaves. *)
Definition state_with_file (self : addr) (path : PyVal) (defs : gmap string PyVal)
    (st : State) : State :=
  {| _settings := _settings st; _lock := _lock st; class_dict := class_dict st;
     instances := <[self := {| _override_settings := PyModule (loaded_module st) |}]> (instances st);
     modules := <[loaded_module st := loaded_namespace defs st]> (modules st);
     sys_modules := <[override_module_name := loaded_module st]> (sys_modules st);
     sessions := sessions st;
     log := log st ++ [(INFO, "Override settings for pynamo available " +:+ py_str path)];
     warnings := (warnings st ++
       (obsolete_warning <$>
          obsolete_present (loaded_namespace defs st) OBSOLETE_META_ATTRIBUTES))%list |}.

(** The state a construction leaves when there is no override file. *)
Definition state_without_file (self : addr) (path : PyVal) (st : State) : State :=
  {| _settings := _settings st; _lock := _lock st; class_dict := class_dict st;
     instances := <[self := {| _override_settings := PyNone |}]> (instances st);
     modules := modules st; sys_modules := sys_modules st; sessions := sessions st;
     log := log st ++ [(INFO, "Override settings for pynamo not available " +:+ py_str path);
                       (INFO, "Using Default settings value")];
     warnings := warnings st |}.

(** The lookup order in the specification's words: the override namespace
    where it defines the key, then the default table, then the absent value. *)
Definition ordered_lookup (override defaults : gmap string PyVal) (key : string) : PyVal :=
  match override !! key with
  | Some v => v
  | None =>
      match defaults !! key with
      | Some v => v
      | None => PyNone
      end
  end.

(** The default table, as the specification documents it. *)
Definition documented_defaults : list (string * PyVal) :=
  [ ("connect_timeout_seconds", PyInt 15);
    ("read_timeout_seconds", PyInt 30);
    ("max_retry_attempts", PyInt 3);
    ("max_pool_connections", PyInt 10);
    ("base_backoff_ms", PyInt 25);
    ("region", PyStr "us-east-1");
    ("allow_rate_limited_scan_without_consumed_capacity", PyBool false) ].

(** Every instance of [st] is in [st'], with the same [_override_settings]. *)
Definition keeps_instances (st st' : State) : Prop :=
  ∀ self o, instances st !! self = Some o → instances st' !! self = Some o.

(** The singleton slot and its lock are as before. *)
Definition keeps_slot (st st' : State) : Prop :=
  _settings st' = _settings st ∧ _lock st' = _lock st.


(** The path a construction without argument looks at. *)
Definition ambient_path : PyVal := resolve_settings_path PyNone.

(** The constructor without argument returns normally: there is no override
    file, or there is one and it loads. *)
Definition constructible : Prop :=
  isfile w ambient_path = Return false ∨
  (isfile w ambient_path = Return true ∧ ∃ defs, source w ambient_path = Defines defs).

(** The program points inside the [with self._lock] block. *)
Definition holds_lock (t : Thread) : bool :=
  match t with
  | AtCheck | AtConstruct | AtAssign _ | AtReturn | AtRelease _ => true
  | AtFastRead | AtFastTest _ | AtAcquire | Done _ => false
  end.

(** What a thread at a program point knows about the slot and the number of
    constructions. *)
Definition thread_ok (st : State) (n : nat) (t : Thread) : Prop :=
  match t with
  | AtFastRead | AtAcquire | AtCheck => True
  | AtFastTest v => v = PyNone ∨ (v = _settings st ∧ isinstance_Settings v = true)
  | AtConstruct => _settings st = PyNone ∧ n = 0
  | AtAssign new => _settings st = PyNone ∧ n = 1 ∧ isinstance_Settings new = true
  | AtReturn => isinstance_Settings (_settings st) = true
  | AtRelease r | Done r =>
      r = Return (_settings st) ∧ isinstance_Settings (_settings st) = true
  end.

(** Mutual exclusion: at most one thread is inside the block, and the lock is
    held exactly when one is. *)
Definition lock_ok (st : State) (ts : list Thread) : Prop :=
  (∀ i j t t', ts !! i = Some t → ts !! j = Some t' →
     holds_lock t = true → holds_lock t' = true → i = j) ∧
  (_lock st = true ↔ ∃ i t, ts !! i = Some t ∧ holds_lock t = true).

(** The slot is empty and nothing has been constructed, or one instance has
    been constructed and is about to be assigned, or the slot holds the one
    instance constructed. *)
Definition slot_ok (st : State) (n : nat) (ts : list Thread) : Prop :=
  (_settings st = PyNone ∧
   (n = 0 ∨ (n = 1 ∧ ∃ i new, ts !! i = Some (AtAssign new)))) ∨
  (isinstance_Settings (_settings st) = true ∧ n = 1).

Definition Inv (s : Sys) : Prop :=
  (∀ i t, threads s !! i = Some t → thread_ok (shared s) (constructions s) t) ∧
  lock_ok (shared s) (threads s) ∧
  slot_ok (shared s) (constructions s) (threads s).

(** The steps a thread has left at most. *)
Definition steps_left (t : Thread) : nat :=
  match t with
  | AtFastRead => 8
  | AtFastTest _ => 7
  | AtAcquire => 6
  | AtCheck => 5
  | AtConstruct => 4
  | AtAssign _ => 3
  | AtReturn => 2
  | AtRelease _ => 1
  | Done _ => 0
  end.

Definition work_left (s : Sys) : nat := sum_list (steps_left <$> threads s).

(** Attribute lookup through [__getattr__] on what a constructor call
    returned. *)
Definition getattr_of (v : PyVal) (key : string) : M PyVal :=
  match v with
  | PySettings self => Settings___getattr__ self key
  | _ => raise (AttributeError key)
  end.

(** [getattr(Settings(settings_path), key)] *)
Definition get_after_construction (settings_path : PyVal) (key : string) (st : State)
    : Outcome PyVal :=
  ((let* s := Settings_call settings_path in getattr_of s key) st).1.

(** The singleton property without proviso: whenever [n > 0] threads have
    all finished reading [Settings.default] on an empty slot, the constructor
    has run exactly once and all of them have received one and the same
    instance. *)
Definition first_callers_share_one_instance : Prop :=
  ∀ n sched st,
    0 < n → _settings st = PyNone → _lock st = false →
    let s := run sched (start n st) in
    all_done s = true →
    constructions s = 1 ∧
    ∃ self, threads s = replicate n (Done (Return (PySettings self))).


(** ** Vocabulary of the further properties *)

(** The slot holds [None] or a [Settings] instance. *)
Definition slot_valid (st : State) : Prop :=
  _settings st = PyNone ∨ isinstance_Settings (_settings st) = true.

(** Every instance that has an override source refers to the module object
    registered as [__pynamodb_override_settings__]. *)
Definition shares_module (st : State) : Prop :=
  ∀ self o m,
    instances st !! self = Some o → _override_settings o = PyModule m →
    sys_modules st !! override_module_name = Some m.

(** The constructor without argument raises [e]: [os.path.isfile] does, or
    the override file is there and the loader raises when it executes it. *)
Definition construction_raises (e : Exn) : Prop :=
  isfile w ambient_path = Raise e ∨
  (isfile w ambient_path = Return true ∧ source w ambient_path = Fails e).

(** The threads that have been through a call of the constructor that
    raised: they are leaving the [with] block or are done. *)
Definition has_attempted (t : Thread) : nat :=
  match t with
  | AtRelease _ | Done _ => 1
  | _ => 0
  end.

(** What a thread can be and know while every construction raises [e]. *)
Definition thread_failing (e : Exn) (t : Thread) : Prop :=
  match t with
  | AtFastRead | AtAcquire | AtCheck | AtConstruct => True
  | AtFastTest v => v = PyNone
  | AtAssign _ | AtReturn => False
  | AtRelease r | Done r => r = Raise e
  end.

Definition Inv_failing (e : Exn) (s : Sys) : Prop :=
  _settings (shared s) = PyNone ∧
  (∀ i t, threads s !! i = Some t → thread_failing e t) ∧
  constructions s = sum_list (has_attempted <$> threads s).

(** * Concrete environments *)

(** A list of obsolete option names to run the code on. *)
Definition example_obsolete_names : list string :=
  ["session_cls"; "request_timeout_seconds"].

(** A world given by the environment variables and the regular files there
    are, each with what the loader makes of it.  No file descriptor is a
    regular file; a path of another type is a [TypeError]. *)
Definition files_world (env : gmap string string) (files : gmap string SourceFile)
    : World :=
  {| version_info := (3, 8)%Z;
     environ := env;
     isfile := λ p,
       match p with
       | PyStr path => Return (bool_decide (is_Some (files !! path)))
       | PyInt _ | PyBool _ => Return false
       | _ => Raise (TypeError "stat: path should be string, bytes, os.PathLike or integer")
       end;
     source := λ p,
       match p with
       | PyStr path => default (Fails (LoadError "FileNotFoundError")) (files !! path)
       | _ => Fails (TypeError "expected str, bytes or os.PathLike object")
       end |}.

(** No override file anywhere, [PYNAMODB_CONFIG] unset. *)
Definition bare_world : World := files_world ∅ ∅.

Definition default_settings_path : string := "/etc/pynamodb/global_default_settings.py".

(** The override file of the specification's end-to-end example, at the
    default path; it also binds an obsolete name. *)
Definition override_world : World :=
  files_world ∅
    {[ default_settings_path :=
         Defines (<["region" := PyStr "eu-west-1"]>
                  (<["session_cls" := PyStr "requests.Session"]> ∅)) ]}.

(** A file at the default path that does not compile. *)
Definition malformed_world : World :=
  files_world ∅ {[ default_settings_path := Fails (LoadError "SyntaxError") ]}.

(** [PYNAMODB_CONFIG] names a second override file; the one at the default
    path is there as well. *)
Definition second_world : World :=
  files_world {[ "PYNAMODB_CONFIG" := "/srv/pynamodb.py" ]}
    (<[ "/srv/pynamodb.py" := Defines (<["max_retry_attempts" := PyInt 7]> ∅) ]>
     {[ default_settings_path :=
          Defines (<["region" := PyStr "eu-west-1"]>
                   (<["session_cls" := PyStr "requests.Session"]> ∅)) ]}).


(** The state [Settings()] leaves in [bare_world], started from
    [empty_state]: instance [0] has no override source. *)
Definition bare_state : State :=
  {| _settings := PyNone; _lock := false; class_dict := ∅;
     instances := {[ 0 := {| _override_settings := PyNone |} ]};
     modules := ∅; sys_modules := ∅; sessions := 0;
     log := [(INFO, "Override settings for pynamo not available /etc/pynamodb/global_default_settings.py");
             (INFO, "Using Default settings value")];
     warnings := [] |}.

(** The state [Settings()] leaves in [override_world], started from
    [empty_state]: instance [0] refers to module [0]. *)
Definition override_state : State :=
  {| _settings := PyNone; _lock := false; class_dict := ∅;
     instances := {[ 0 := {| _override_settings := PyModule 0 |} ]};
     modules := {[ 0 := <["region" := PyStr "eu-west-1"]>
                        (<["session_cls" := PyStr "requests.Session"]> ∅) ]};
     sys_modules := {[ "__pynamodb_override_settings__" := 0 ]};
     sessions := 0;
     log := [(INFO, "Override settings for pynamo available /etc/pynamodb/global_default_settings.py")];
     warnings := ["The `session_cls` option is no longer supported"] |}.

(** An interleaving of two first callers that switches thread after every
    step while both can move. *)
Definition alternating_schedule : list nat :=
  [0; 1; 0; 1; 0; 1; 0; 1; 0; 1; 0; 1; 0; 1; 0; 1; 1; 1; 1; 1; 1].

(** An interleaving in which the second caller starts when the first is
    done. *)
Definition one_after_the_other : list nat :=
  [0; 0; 0; 0; 0; 0; 1; 1; 1; 1; 1; 1].

(** The state [Settings.default] leaves in [bare_world], started from
    [empty_state]: instance [0] is in the slot. *)
Definition installed_state : State := set__settings (PySettings 0) bare_state.

(** [PYNAMODB_CONFIG] is set to the empty string; there is an override file
    at the default path. *)
Definition empty_variable_world : World :=
  files_world {[ "PYNAMODB_CONFIG" := "" ]}
    {[ default_settings_path := Defines (<["region" := PyStr "eu-west-1"]> ∅) ]}.

(** [PYNAMODB_CONFIG] is set to the empty string; there is no file. *)
Definition empty_variable_bare_world : World :=
  files_world {[ "PYNAMODB_CONFIG" := "" ]} ∅.

(** Two threads, the second inside the [with] block, once instance [0] is in
    the slot. *)
Definition busy_system : Sys :=
  {| shared := set__lock true installed_state;
     threads := [AtFastRead; AtReturn];
     constructions := 1 |}.

(** * Properties *)

(** ** Strings *)

Lemma length_append (a b : string) :
  String.length (a +:+ b) = String.length a + String.length b.
Proof. induction a as [|c a IH]; simpl; [done | by rewrite <- IH]. Qed.

Lemma append_cancel_r (a b s : string) : a +:+ s = b +:+ s → a = b.
Proof.
  revert b. induction a as [|c a IH]; intros [|d b] H.
  - done.
  - apply (f_equal String.length) in H.
    rewrite !length_append in H. simpl in H. lia.
  - apply (f_equal String.length) in H.
    rewrite !length_append in H. simpl in H. lia.
  - change (String c (a +:+ s) = String d (b +:+ s)) in H.
    injection H as -> H. f_equal. by apply IH.
Qed.

Lemma obsolete_warning_inj (k1 k2 : string) :
  obsolete_warning k1 = obsolete_warning k2 → k1 = k2.
Proof.
  unfold obsolete_warning. intros H.
  apply (inj (String.app "The `")) in H.
  by apply append_cancel_r in H.
Qed.

(** ** The constructor *)

Lemma set_warnings_id st : set_warnings (warnings st) st = st.
Proof. by destruct st. Qed.

Lemma obsolete_loop_spec self o names st :
  instances st !! self = Some o →
  obsolete_loop self names st =
    (Return tt,
     set_warnings
       (warnings st ++
        (obsolete_warning <$> obsolete_present (namespace_of st (_override_settings o)) names))%list
       st).
Proof.
  revert st. induction names as [|k names IH]; intros st Hself.
  - cbn. by rewrite app_nil_r, set_warnings_id.
  - unfold obsolete_loop in *. cbn [for_each].
    unfold bind at 1. unfold bind at 1. unfold get_override at 1. rewrite Hself.
    unfold bind at 1. unfold hasattr at 1, gets.
    unfold obsolete_present. rewrite filter_cons.
    destruct (decide (is_Some (namespace_of st (_override_settings o) !! k))) as [Hk|Hk].
    + rewrite bool_decide_eq_true_2 by done.
      unfold warnings_warn, modify.
      rewrite IH by done. cbn [fmap list_fmap]. f_equal.
      cbn. by rewrite <- app_assoc.
    + rewrite bool_decide_eq_false_2 by done.
      unfold ret. by rewrite IH.
Qed.

Lemma _load_module_spec path defs st :
  source w path = Defines defs →
  _load_module override_module_name path st =
    (Return (PyModule (loaded_module st)),
     set_modules (<[loaded_module st := loaded_namespace defs st]> (modules st))
                 (<[override_module_name := loaded_module st]> (sys_modules st)) st).
Proof.
  intros Hsrc.
  assert (exec_source override_module_name path st =
    (Return (PyModule (loaded_module st)),
     set_modules (<[loaded_module st := loaded_namespace defs st]> (modules st))
                 (<[override_module_name := loaded_module st]> (sys_modules st)) st)) as Hexec.
  { unfold exec_source, loaded_module, loaded_namespace. rewrite Hsrc.
    destruct (sys_modules st !! override_module_name) as [m|] eqn:Hm; [|done].
    by rewrite (insert_id _ _ _ Hm). }
  unfold _load_module, SourceFileLoader_load_module, imp_load_source.
  by destruct (version_at_least _ _ _).
Qed.

Lemma _load_module_fails path e st :
  source w path = Fails e →
  _load_module override_module_name path st = (Raise e, st).
Proof.
  intros Hsrc.
  unfold _load_module, SourceFileLoader_load_module, imp_load_source, exec_source.
  rewrite Hsrc. by destruct (version_at_least _ _ _).
Qed.

Lemma init_from_path_file self path defs st :
  isfile w path = Return true →
  source w path = Defines defs →
  init_from_path self path st = (Return tt, state_with_file self path defs st).
Proof.
  intros Hfile Hsrc. unfold init_from_path.
  unfold bind at 1. unfold os_path_isfile, lift. rewrite Hfile.
  unfold bind at 1. fold override_module_name. rewrite (_load_module_spec _ _ _ Hsrc).
  unfold bind at 1. unfold set_override at 1, modify.
  unfold bind at 1. fold (obsolete_loop self OBSOLETE_META_ATTRIBUTES).
  erewrite obsolete_loop_spec; last by (cbn; apply lookup_insert_eq).
  unfold log_info, modify. cbn. by rewrite lookup_insert_eq.
Qed.

Lemma init_from_path_no_file self path st :
  isfile w path = Return false →
  init_from_path self path st = (Return tt, state_without_file self path st).
Proof.
  intros Hfile. unfold init_from_path.
  unfold bind at 1. unfold os_path_isfile, lift. rewrite Hfile.
  cbn. unfold log_info, modify, state_without_file. cbn. by rewrite <- app_assoc.
Qed.

Lemma init_from_path_load_fails self path e st :
  isfile w path = Return true →
  source w path = Fails e →
  init_from_path self path st = (Raise e, st).
Proof.
  intros Hfile Hsrc. unfold init_from_path.
  unfold bind at 1. unfold os_path_isfile, lift. rewrite Hfile.
  unfold bind at 1. fold override_module_name. by rewrite (_load_module_fails _ _ _ Hsrc).
Qed.

Lemma Settings_call_file settings_path defs st :
  isfile w (resolve_settings_path settings_path) = Return true →
  source w (resolve_settings_path settings_path) = Defines defs →
  Settings_call settings_path st =
    (Return (PySettings (fresh (dom (instances st)))),
     state_with_file (fresh (dom (instances st))) (resolve_settings_path settings_path) defs st).
Proof.
  intros Hfile Hsrc. unfold Settings_call, Settings___init__.
  unfold bind at 1. unfold gets at 1. unfold bind at 1.
  by rewrite (init_from_path_file _ _ _ _ Hfile Hsrc).
Qed.

Lemma Settings_call_no_file settings_path st :
  isfile w (resolve_settings_path settings_path) = Return false →
  Settings_call settings_path st =
    (Return (PySettings (fresh (dom (instances st)))),
     state_without_file (fresh (dom (instances st))) (resolve_settings_path settings_path) st).
Proof.
  intros Hfile. unfold Settings_call, Settings___init__.
  unfold bind at 1. unfold gets at 1. unfold bind at 1.
  by rewrite (init_from_path_no_file _ _ _ Hfile).
Qed.

Lemma Settings_call_load_fails settings_path e st :
  isfile w (resolve_settings_path settings_path) = Return true →
  source w (resolve_settings_path settings_path) = Fails e →
  Settings_call settings_path st = (Raise e, st).
Proof.
  intros Hfile Hsrc. unfold Settings_call, Settings___init__.
  unfold bind at 1. unfold gets at 1. unfold bind at 1.
  by rewrite (init_from_path_load_fails _ _ _ _ Hfile Hsrc).
Qed.

(** The constructor, case by case. *)
Lemma Settings_call_cases settings_path st :
  let path := resolve_settings_path settings_path in
  let self := fresh (dom (instances st)) in
  Settings_call settings_path st =
    match isfile w path with
    | Return true =>
        match source w path with
        | Defines defs => (Return (PySettings self), state_with_file self path defs st)
        | Fails e => (Raise e, st)
        end
    | Return false => (Return (PySettings self), state_without_file self path st)
    | Raise e => (Raise e, st)
    | Block => (Block, st)
    end.
Proof.
  intros path self. subst path self.
  destruct (isfile w (resolve_settings_path settings_path)) as [[]|e|] eqn:Hfile.
  - destruct (source w (resolve_settings_path settings_path)) as [defs|e] eqn:Hsrc.
    + by apply Settings_call_file.
    + by apply Settings_call_load_fails.
  - by apply Settings_call_no_file.
  - unfold Settings_call, Settings___init__, init_from_path, os_path_isfile, lift.
    unfold bind at 1. unfold gets at 1. unfold bind at 1. unfold bind at 1.
    by rewrite Hfile.
  - unfold Settings_call, Settings___init__, init_from_path, os_path_isfile, lift.
    unfold bind at 1. unfold gets at 1. unfold bind at 1. unfold bind at 1.
    by rewrite Hfile.
Qed.

(** ** The accessor *)

Lemma namespace_of_falsy st o : truthy o = false → namespace_of st o = ∅.
Proof. by destruct o. Qed.

(** [Settings.__getattr__] performs the ordered lookup and leaves the state
    as it is. *)
Lemma Settings___getattr___spec self o key st :
  instances st !! self = Some o →
  Settings___getattr__ self key st =
    (Return (ordered_lookup (namespace_of st (_override_settings o)) DEFAULT_SETTINGS key), st).
Proof.
  intros Hself. unfold Settings___getattr__, ordered_lookup.
  unfold bind at 1. unfold get_override at 1. rewrite Hself.
  unfold bind at 1.
  destruct (truthy (_override_settings o)) eqn:Htruthy.
  - unfold bind at 1. unfold get_override at 1. rewrite Hself.
    unfold hasattr, gets.
    destruct (namespace_of st (_override_settings o) !! key) as [v|] eqn:Hkey.
    + rewrite bool_decide_eq_true_2 by eauto.
      unfold bind, get_override, getattr. by rewrite Hself, Hkey.
    + rewrite bool_decide_eq_false_2 by (by intros [? ?]).
      case_bool_decide as Hdom.
      * apply elem_of_dom in Hdom as [v Hv]. by rewrite Hv.
      * apply not_elem_of_dom in Hdom. by rewrite Hdom.
  - unfold ret at 1. rewrite (namespace_of_falsy _ _ Htruthy), lookup_empty.
    case_bool_decide as Hdom.
    + apply elem_of_dom in Hdom as [v Hv]. by rewrite Hv.
    + apply not_elem_of_dom in Hdom. by rewrite Hdom.
Qed.

(** On something that is not a constructed instance the accessor raises. *)
Lemma Settings___getattr___unconstructed self key st :
  instances st !! self = None →
  Settings___getattr__ self key st = (Raise RecursionError, st).
Proof.
  intros Hself. unfold Settings___getattr__, bind, get_override. by rewrite Hself.
Qed.

Lemma DEFAULT_SETTINGS_documented key v :
  (key, v) ∈ documented_defaults → DEFAULT_SETTINGS !! key = Some v.
Proof.
  unfold documented_defaults. rewrite !elem_of_cons, elem_of_nil.
  intros H. repeat (destruct H as [H|H]; [by simplify_eq|]). done.
Qed.

Lemma DEFAULT_SETTINGS_only_documented key v :
  DEFAULT_SETTINGS !! key = Some v → (key, v) ∈ documented_defaults.
Proof.
  unfold DEFAULT_SETTINGS, dict_display. cbn [foldl fst snd].
  intros H. unfold documented_defaults.
  repeat (apply lookup_insert_Some in H as [[<- <-]|[_ H]]; [set_solver|]).
  by rewrite lookup_empty in H.
Qed.

(** ** What the operations leave alone *)

Lemma keeps_instances_refl st : keeps_instances st st.
Proof. by intros ??. Qed.

Lemma keeps_instances_trans st1 st2 st3 :
  keeps_instances st1 st2 → keeps_instances st2 st3 → keeps_instances st1 st3.
Proof. intros H12 H23 ???. eauto. Qed.

Lemma keeps_instances_fresh st st' o :
  instances st' = <[fresh (dom (instances st)) := o]> (instances st) →
  keeps_instances st st'.
Proof.
  intros Heq self o' Hself. rewrite Heq.
  rewrite lookup_insert_ne; [done|].
  intros <-. apply (is_fresh (dom (instances st))).
  apply elem_of_dom. eauto.
Qed.

Lemma keeps_instances_same st st' :
  instances st' = instances st → keeps_instances st st'.
Proof. intros Heq ???. by rewrite Heq. Qed.

Lemma Settings_call_keeps settings_path st :
  keeps_instances st (Settings_call settings_path st).2 ∧
  keeps_slot st (Settings_call settings_path st).2.
Proof.
  rewrite Settings_call_cases.
  destruct (isfile w _) as [[]|e|]; [destruct (source w _)|..]; cbn [snd];
    (split; [first [by eapply keeps_instances_fresh | apply keeps_instances_refl] | done]).
Qed.

Lemma Settings_call_returns settings_path st v :
  (Settings_call settings_path st).1 = Return v →
  v = PySettings (fresh (dom (instances st))) ∧
  is_Some (instances (Settings_call settings_path st).2 !! fresh (dom (instances st))).
Proof.
  rewrite Settings_call_cases.
  destruct (isfile w _) as [[]|e|]; [destruct (source w _)|..]; cbn [fst snd];
    intros; simplify_eq; (split; [done|]); cbn; rewrite lookup_insert_eq; eauto.
Qed.

Lemma Settings___getattr___pure self key st :
  (Settings___getattr__ self key st).2 = st.
Proof.
  destruct (instances st !! self) as [o|] eqn:Hself.
  - by rewrite (Settings___getattr___spec _ _ _ _ Hself).
  - by rewrite (Settings___getattr___unconstructed _ _ _ Hself).
Qed.

(** [Settings.default], case by case. *)
Lemma current_cases st :
  current st =
    if truthy (_settings st) then (Return (_settings st), st)
    else if _lock st then (Block, st)
    else match Settings_call PyNone (set__lock true st) with
         | (Return new, st') => (Return new, set__lock false (set__settings new st'))
         | (Raise e, st') => (Raise e, set__lock false st')
         | (Block, st') => (Block, st')
         end.
Proof.
  unfold current, SettingsMeta___getattr__.
  change (String.eqb DEFAULT DEFAULT) with true. cbn match.
  unfold bind at 1. unfold gets at 1.
  destruct (truthy (_settings st)) eqn:Hslot; [done|].
  unfold with_lock. destruct (_lock st) eqn:Hlock; [done|].
  unfold bind at 1. unfold gets at 1.
  change (_settings (set__lock true st)) with (_settings st). rewrite Hslot.
  cbn [negb]. unfold bind at 1. unfold bind at 1.
  destruct (Settings_call PyNone (set__lock true st)) as [[new|e|] st'] eqn:Hcall; try done.
Qed.

Lemma current_keeps st : keeps_instances st (current st).2.
Proof.
  rewrite current_cases.
  destruct (truthy (_settings st)); [apply keeps_instances_refl|].
  destruct (_lock st); [apply keeps_instances_refl|].
  pose proof (Settings_call_keeps PyNone (set__lock true st)) as [Hkeep _].
  destruct (Settings_call PyNone (set__lock true st)) as [[new|e|] st']; apply Hkeep.
Qed.

(** [Settings.default = value], case by case. *)
Lemma replace_cases value st :
  replace value st =
    if isinstance_Settings value
    then if _lock st then (Block, st)
         else (Return tt, set__lock false (set__settings value (set__lock true st)))
    else (Raise (ValueError "'default' must be an instance of Settings"), st).
Proof.
  unfold replace, SettingsMeta___setattr__.
  change (String.eqb DEFAULT DEFAULT) with true. cbn match.
  destruct (isinstance_Settings value); cbn [negb]; [|done].
  unfold with_lock. by destruct (_lock st).
Qed.

Lemma replace_keeps value st : keeps_instances st (replace value st).2.
Proof.
  rewrite replace_cases.
  destruct (isinstance_Settings value), (_lock st);
    first [apply keeps_instances_refl | by apply keeps_instances_same].
Qed.

Lemma exec_op_keeps op st : keeps_instances st (exec_op op st).2.
Proof.
  destruct op as [self key| |value|self|settings_path]; cbn [exec_op].
  - rewrite Settings___getattr___pure. apply keeps_instances_refl.
  - apply current_keeps.
  - unfold bind. pose proof (replace_keeps value st) as Hkeep.
    by destruct (replace value st) as [[[]|e|] st'].
  - by apply keeps_instances_same.
  - apply Settings_call_keeps.
Qed.

Lemma exec_ops_keeps ops st : keeps_instances st (exec_ops ops st).
Proof.
  revert st. induction ops as [|op ops IH]; intros st; cbn [exec_ops].
  - apply keeps_instances_refl.
  - pose proof (exec_op_keeps op st) as Hop.
    destruct (exec_op op st) as [[v|e|] st']; cbn [snd] in Hop;
      eauto using keeps_instances_trans.
Qed.

Lemma thread_step_keeps t st n t' st' n' :
  thread_step t st n = Some (t', st', n') → keeps_instances st st'.
Proof.
  destruct t; cbn [thread_step]; intros Hstep; simplify_eq;
    try (by apply keeps_instances_same).
  - destruct (_lock st); simplify_eq. by apply keeps_instances_same.
  - pose proof (Settings_call_keeps PyNone st) as [Hkeep _].
    destruct (Settings_call PyNone st) as [[new|e|] st'']; by simplify_eq.
Qed.

(** ** The lookup chain *)

(** The class starts with an empty slot and a free lock. *)
Lemma SettingsMeta___init___spec st :
  (SettingsMeta___init__ st).1 = Return tt ∧
  _settings (SettingsMeta___init__ st).2 = PyNone ∧
  _lock (SettingsMeta___init__ st).2 = false.
Proof. done. Qed.

Lemma lookup_without_override self o key st :
  instances st !! self = Some o →
  _override_settings o = PyNone →
  Settings___getattr__ self key st =
    (Return (default PyNone (DEFAULT_SETTINGS !! key)), st).
Proof.
  intros Hself Hnone. rewrite (Settings___getattr___spec _ _ _ _ Hself), Hnone.
  unfold ordered_lookup. cbn [namespace_of]. rewrite lookup_empty.
  by destruct (DEFAULT_SETTINGS !! key).
Qed.

(** C1: a [Settings] instance constructed while there is no override file
    answers every recognized key with its documented default; in particular
    [region] is ["us-east-1"] and [max_retry_attempts] is [3]. *)
Theorem defaults_without_override settings_path st :
  isfile w (resolve_settings_path settings_path) = Return false →
  ∃ self st',
    Settings_call settings_path st = (Return (PySettings self), st') ∧
    (∀ key v, (key, v) ∈ documented_defaults →
       Settings___getattr__ self key st' = (Return v, st')) ∧
    Settings___getattr__ self "region" st' = (Return (PyStr "us-east-1"), st') ∧
    Settings___getattr__ self "max_retry_attempts" st' = (Return (PyInt 3), st').
Proof.
  intros Hfile. eexists _, _. split; [by apply Settings_call_no_file|].
  set (self := fresh (dom (instances st))).
  set (st' := state_without_file _ _ _).
  assert (instances st' !! self = Some {| _override_settings := PyNone |}) as Hself
    by apply lookup_insert_eq.
  assert (∀ key v, (key, v) ∈ documented_defaults →
            Settings___getattr__ self key st' = (Return v, st')) as Hall.
  { intros key v Hdoc.
    rewrite (lookup_without_override _ _ _ _ Hself eq_refl).
    by rewrite (DEFAULT_SETTINGS_documented _ _ Hdoc). }
  split; [done|]. split; apply Hall; set_solver.
Qed.

(** C2: ordered lookup.  A key the override module defines is answered with
    the override's value, whatever the default table says; a key the override
    does not define and the default table does is answered with the
    default. *)
Theorem override_first_then_defaults self o key st :
  instances st !! self = Some o →
  (∀ m ns v, _override_settings o = PyModule m →
     modules st !! m = Some ns → ns !! key = Some v →
     Settings___getattr__ self key st = (Return v, st)) ∧
  (∀ d, namespace_of st (_override_settings o) !! key = None →
     DEFAULT_SETTINGS !! key = Some d →
     Settings___getattr__ self key st = (Return d, st)).
Proof.
  intros Hself. rewrite (Settings___getattr___spec _ _ _ _ Hself).
  unfold ordered_lookup. split.
  - intros m ns v -> Hm Hkey. cbn [namespace_of]. rewrite Hm. cbn. by rewrite Hkey.
  - intros d -> ->. done.
Qed.

(** C3: a key defined neither by the override source nor by the default table
    is answered with [None]; nothing is raised. *)
Theorem unknown_key_gives_none self o key st :
  instances st !! self = Some o →
  namespace_of st (_override_settings o) !! key = None →
  DEFAULT_SETTINGS !! key = None →
  Settings___getattr__ self key st = (Return PyNone, st).
Proof.
  intros Hself Hov Hdef. rewrite (Settings___getattr___spec _ _ _ _ Hself).
  unfold ordered_lookup. by rewrite Hov, Hdef.
Qed.

(** ** The singleton slot *)

(** C5: [Settings.default = x] with [x] not a [Settings] instance raises
    [ValueError] at once (it does not even wait for the lock) and leaves the
    state, the slot included, as it was. *)
Theorem replace_rejects_non_settings x st :
  isinstance_Settings x = false →
  replace x st = (Raise (ValueError "'default' must be an instance of Settings"), st) ∧
  _settings (replace x st).2 = _settings st.
Proof.
  intros Hx. rewrite replace_cases, Hx. done.
Qed.

(** ** Construction without an override file *)

(** C8: when the resolved path is not an existing file the constructor
    returns an instance without override source, logs the outcome at [INFO]
    level, and every later lookup on the instance is answered from the
    default table ([None] for a name the table lacks). *)
Theorem missing_file_falls_back_to_defaults settings_path st :
  isfile w (resolve_settings_path settings_path) = Return false →
  ∃ self st',
    Settings_call settings_path st = (Return (PySettings self), st') ∧
    instances st' !! self = Some {| _override_settings := PyNone |} ∧
    log st' =
      (log st ++
       [(INFO, "Override settings for pynamo not available " +:+
               py_str (resolve_settings_path settings_path));
        (INFO, "Using Default settings value")])%list ∧
    ∀ ops key,
      Settings___getattr__ self key (exec_ops ops st') =
        (Return (default PyNone (DEFAULT_SETTINGS !! key)), exec_ops ops st').
Proof.
  intros Hfile. eexists _, _. split; [by apply Settings_call_no_file|].
  set (self := fresh (dom (instances st))).
  set (st' := state_without_file _ _ _).
  assert (instances st' !! self = Some {| _override_settings := PyNone |}) as Hself
    by apply lookup_insert_eq.
  split; [done|]. split; [reflexivity|].
  intros ops key.
  eapply lookup_without_override; [by apply (exec_ops_keeps ops st')|done].
Qed.

(** ** Instances are never rebound *)

(** C9: no operation of the module changes the [_override_settings] reference
    of an existing instance: not a lookup, [Settings.default], an assignment
    to it, [get_session] or the construction of another instance, singly or
    in sequence, nor a step of a thread inside [Settings.default]; and a
    lookup changes nothing at all. *)
Theorem override_reference_never_changes st self o :
  instances st !! self = Some o →
  (∀ op, instances (exec_op op st).2 !! self = Some o) ∧
  (∀ ops, instances (exec_ops ops st) !! self = Some o) ∧
  (∀ t n t' st' n',
     thread_step t st n = Some (t', st', n') → instances st' !! self = Some o) ∧
  (∀ self' key, (Settings___getattr__ self' key st).2 = st).
Proof.
  intros Hself. repeat split.
  - intros op. by apply (exec_op_keeps op st).
  - intros ops. by apply (exec_ops_keeps ops st).
  - intros t n t' st' n' Hstep. by apply (thread_step_keeps _ _ _ _ _ _ Hstep).
  - intros self' key. apply Settings___getattr___pure.
Qed.

(** ** Warnings for obsolete options *)



Global Instance obsolete_warning_Inj : Inj (=) (=) obsolete_warning.
Proof. intros k1 k2. apply obsolete_warning_inj. Qed.



(** ** Concurrent first callers of [Settings.default] *)

Lemma constructible_call st :
  constructible →
  ∃ self st', Settings_call PyNone st = (Return (PySettings self), st') ∧ keeps_slot st st'.
Proof.
  intros Hok. pose proof (Settings_call_keeps PyNone st) as [_ Hslot].
  destruct Hok as [Hfile|[Hfile [defs Hsrc]]].
  - rewrite (Settings_call_no_file _ _ Hfile) in *. eauto.
  - rewrite (Settings_call_file _ _ _ Hfile Hsrc) in *. eauto.
Qed.

Lemma lookup_insert_thread (ts : list Thread) i j t x :
  <[i := t]> ts !! j = Some x → (j = i ∧ x = t) ∨ (j ≠ i ∧ ts !! j = Some x).
Proof.
  intros [(-> & -> & _)|[Hne Hj]]%list_lookup_insert_Some; [by left|by right].
Qed.

Lemma thread_ok_same st st' n t :
  _settings st' = _settings st → thread_ok st n t → thread_ok st' n t.
Proof. intros Heq. destruct t; cbn; by rewrite ?Heq. Qed.

Lemma thread_ok_outside st st' n n' t :
  holds_lock t = false →
  _settings st = PyNone ∨ _settings st' = _settings st →
  thread_ok st n t → thread_ok st' n' t.
Proof.
  intros Hout Hslot. destruct t; try done; cbn.
  - intros [->|[-> Hinst]]; [by left|].
    destruct Hslot as [Hnone|Heq]; [by rewrite Hnone in Hinst|].
    right. by rewrite Heq.
  - intros [-> Hinst].
    destruct Hslot as [Hnone|Heq]; [by rewrite Hnone in Hinst|].
    by rewrite Heq.
Qed.

(** A step that stays on the same side of the lock. *)
Lemma lock_ok_same_side st st' (ts : list Thread) i t t' :
  ts !! i = Some t →
  holds_lock t' = holds_lock t →
  _lock st' = _lock st →
  lock_ok st ts → lock_ok st' (<[i := t']> ts).
Proof.
  intros Hi Hside Hlock [Huniq Hheld]. split.
  - intros j k x y [[-> ->]|[Hj Hx]]%lookup_insert_thread
      [[-> ->]|[Hk Hy]]%lookup_insert_thread Hhx Hhy; try done.
    + rewrite Hside in Hhx. symmetry. eauto.
    + rewrite Hside in Hhy. eauto.
    + eauto.
  - rewrite Hlock, Hheld. split.
    + intros (j & x & Hj & Hx). destruct (decide (j = i)) as [->|Hne].
      * exists i, t'. rewrite list_lookup_insert_eq by (by eapply lookup_lt_Some).
        split; [done|]. rewrite Hside. by simplify_eq.
      * exists j, x. by rewrite list_lookup_insert_ne.
    + intros (j & x & [[-> ->]|[Hj Hx]]%lookup_insert_thread & Hhx).
      * exists i, t. by rewrite <- Hside.
      * eauto.
Qed.

(** Entering the block. *)
Lemma lock_ok_acquire st st' (ts : list Thread) i t t' :
  ts !! i = Some t →
  holds_lock t' = true →
  _lock st = false → _lock st' = true →
  lock_ok st ts → lock_ok st' (<[i := t']> ts).
Proof.
  intros Hi Hin Hfree Hheld' [Huniq Hheld].
  assert (∀ j x, ts !! j = Some x → holds_lock x = false) as Hnone.
  { intros j x Hj. destruct (holds_lock x) eqn:Hx; [|done].
    rewrite Hfree in Hheld. assert (false = true) by (apply Hheld; eauto). done. }
  split.
  - intros j k x y [[-> ->]|[Hj Hx]]%lookup_insert_thread
      [[-> ->]|[Hk Hy]]%lookup_insert_thread Hhx Hhy; try done.
    + by rewrite (Hnone _ _ Hy) in Hhy.
    + by rewrite (Hnone _ _ Hx) in Hhx.
    + by rewrite (Hnone _ _ Hx) in Hhx.
  - split; [|done]. intros _. exists i, t'.
    by rewrite list_lookup_insert_eq by (by eapply lookup_lt_Some).
Qed.

(** Leaving the block. *)
Lemma lock_ok_release st st' (ts : list Thread) i t t' :
  ts !! i = Some t →
  holds_lock t = true → holds_lock t' = false →
  _lock st' = false →
  lock_ok st ts → lock_ok st' (<[i := t']> ts).
Proof.
  intros Hi Hin Hout Hfree' [Huniq Hheld].
  assert (∀ j x, j ≠ i → ts !! j = Some x → holds_lock x = false) as Hnone.
  { intros j x Hne Hj. destruct (holds_lock x) eqn:Hx; [|done].
    destruct Hne. eauto. }
  split.
  - intros j k x y [[-> ->]|[Hj Hx]]%lookup_insert_thread
      [[-> ->]|[Hk Hy]]%lookup_insert_thread Hhx Hhy; try congruence.
    by rewrite (Hnone _ _ Hj Hx) in Hhx.
  - rewrite Hfree'. split; [done|].
    intros (j & x & [[-> ->]|[Hj Hx]]%lookup_insert_thread & Hhx).
    + by rewrite Hout in Hhx.
    + by rewrite (Hnone _ _ Hj Hx) in Hhx.
Qed.

(** The thread inside the block is the only one there. *)
Lemma lock_ok_others_outside st (ts : list Thread) i t j x :
  lock_ok st ts →
  ts !! i = Some t → holds_lock t = true →
  j ≠ i → ts !! j = Some x → holds_lock x = false.
Proof.
  intros [Huniq _] Hi Hin Hne Hj. destruct (holds_lock x) eqn:Hx; [|done].
  destruct Hne. eauto.
Qed.

(** A step of a thread that is not about to assign and does not touch the
    slot. *)
Lemma slot_ok_same st st' n (ts : list Thread) i t t' :
  ts !! i = Some t →
  (∀ new, t ≠ AtAssign new) →
  _settings st' = _settings st →
  slot_ok st n ts → slot_ok st' n (<[i := t']> ts).
Proof.
  intros Hi Hnot Heq [[Hnone Hn]|[Hinst Hn]]; [left|right; by rewrite Heq].
  rewrite Heq. split; [done|]. destruct Hn as [->|[-> (j & new & Hj)]]; [by left|].
  right. split; [done|]. exists j, new. rewrite list_lookup_insert_ne; [done|].
  intros ->. rewrite Hi in Hj. simplify_eq. by destruct (Hnot new).
Qed.

Lemma Inv_after_step (ts : list Thread) i t t' st' n' :
  ts !! i = Some t →
  thread_ok st' n' t' →
  (∀ j x, j ≠ i → ts !! j = Some x → thread_ok st' n' x) →
  lock_ok st' (<[i := t']> ts) →
  slot_ok st' n' (<[i := t']> ts) →
  Inv {| shared := st'; threads := <[i := t']> ts; constructions := n' |}.
Proof.
  intros Hi Ht' Hothers Hlock Hslot. split; [|done].
  intros j x [[-> ->]|[Hne Hj]]%lookup_insert_thread; cbn; eauto.
Qed.

(** Every step of every thread keeps the invariant. *)
Lemma step_Inv i s s' :
  constructible → Inv s → step i s = Some s' → Inv s'.
Proof.
  intros Hok (Hthreads & Hlock & Hslot) Hstep. unfold step in Hstep.
  destruct s as [st ts n]. cbn [shared threads constructions] in *.
  destruct (ts !! i) as [t|] eqn:Hi; [|done].
  pose proof (Hthreads _ _ Hi) as Ht.
  assert (∀ st', _settings st' = _settings st →
            ∀ j x, j ≠ i → ts !! j = Some x → thread_ok st' n x) as Hsame.
  { intros st' Heq j x _ Hj. eapply thread_ok_same; eauto. }
  destruct t; cbn [thread_step] in Hstep.
  - (* settings = self._settings *)
    simplify_eq. apply (Inv_after_step ts i AtFastRead); cbn; auto;
      try (by apply Hsame).
    + destruct Hslot as [[Hnone _]|[Hinst _]]; [by left|by right].
    + by eapply lock_ok_same_side.
    + by eapply slot_ok_same.
  - (* if settings: return settings *)
    simplify_eq.
    apply (Inv_after_step ts i (AtFastTest settings)); cbn; auto;
      try (by apply Hsame).
    + destruct (truthy settings) eqn:Htruthy; [|done].
      destruct Ht as [->|[-> Hinst]]; done.
    + eapply lock_ok_same_side; eauto. by destruct (truthy settings).
    + by eapply slot_ok_same.
  - (* with self._lock: *)
    destruct (_lock st) eqn:Hfree; simplify_eq.
    apply (Inv_after_step ts i AtAcquire); cbn; auto;
      try (by apply Hsame).
    + by eapply lock_ok_acquire.
    + by eapply slot_ok_same.
  - (* if not self._settings: *)
    simplify_eq. apply (Inv_after_step ts i AtCheck); cbn; auto;
      try (by apply Hsame).
    + destruct Hslot as [[Hnone Hn]|[Hinst Hn]].
      * rewrite Hnone. cbn. split; [done|].
        destruct Hn as [->|[-> (j & new & Hj)]]; [done|].
        destruct Hlock as [Huniq _].
        assert (j = i) as -> by (eapply Huniq; eauto). congruence.
      * destruct (_settings st) eqn:Hs; try done. cbn. by rewrite Hs.
    + eapply lock_ok_same_side; eauto. by destruct (negb _).
    + by eapply slot_ok_same.
  - (* Settings() *)
    destruct Ht as [Hnone ->].
    destruct (constructible_call st Hok) as (self & st'' & Hcall & Hset & Hlk).
    rewrite Hcall in Hstep. simplify_eq.
    apply (Inv_after_step ts i AtConstruct); cbn; auto;
      try (by apply Hsame).
    + by rewrite Hset.
    + intros j x Hne Hj. apply (thread_ok_outside st _ 0); [|by left|by eauto].
      by apply (lock_ok_others_outside st ts i AtConstruct j x).
    + by eapply lock_ok_same_side.
    + left. rewrite Hset. split; [done|]. right. split; [done|].
      exists i, (PySettings self).
      by rewrite list_lookup_insert_eq by (by eapply lookup_lt_Some).
  - (* self._settings = new *)
    destruct Ht as (Hnone & -> & Hinst). simplify_eq.
    apply (Inv_after_step ts i (AtAssign new)); cbn; auto;
      try (by apply Hsame).
    + intros j x Hne Hj. apply (thread_ok_outside st _ 1); [|by left|by eauto].
      by apply (lock_ok_others_outside st ts i (AtAssign new) j x).
    + by eapply lock_ok_same_side.
    + by right.
  - (* return self._settings *)
    simplify_eq. apply (Inv_after_step ts i AtReturn); cbn; auto;
      try (by apply Hsame).
    + by eapply lock_ok_same_side.
    + by eapply slot_ok_same.
  - (* the lock is released *)
    simplify_eq. apply (Inv_after_step ts i (AtRelease r)); cbn; auto;
      try (by apply Hsame).
    + by eapply lock_ok_release.
    + by eapply slot_ok_same.
  - done.
Qed.

Lemma start_Inv n st :
  _settings st = PyNone → _lock st = false → Inv (start n st).
Proof.
  intros Hnone Hfree.
  assert (∀ i t, replicate n AtFastRead !! i = Some t → t = AtFastRead) as Hall.
  { by intros i t [-> _]%lookup_replicate. }
  split; [|split]; cbn.
  - intros i t ->%Hall. done.
  - split.
    + by intros i j t t' ->%Hall.
    + rewrite Hfree. split; [done|]. by intros (i & t & ->%Hall & ?).
  - left. auto.
Qed.

Lemma run_Inv sched s : constructible → Inv s → Inv (run sched s).
Proof.
  intros Hok. revert s. induction sched as [|i sched IH]; intros s Hinv; cbn [run]; [done|].
  apply IH. destruct (step i s) as [s'|] eqn:Hstep; cbn; [|done].
  by eapply step_Inv.
Qed.

(** *** No deadlock, and every interleaving ends *)

Lemma thread_step_decreases t st n t' st' n' :
  thread_step t st n = Some (t', st', n') → steps_left t' < steps_left t.
Proof.
  destruct t; cbn [thread_step]; intros Hstep; simplify_eq; cbn; try lia.
  - destruct (truthy settings); cbn; lia.
  - destruct (_lock st); simplify_eq. cbn. lia.
  - destruct (negb _); cbn; lia.
  - destruct (Settings_call PyNone st) as [[new|e|] st'']; simplify_eq; cbn; lia.
Qed.

Lemma sum_list_insert_lt (f : Thread → nat) (ts : list Thread) i t t' :
  ts !! i = Some t → f t' < f t →
  sum_list (f <$> <[i := t']> ts) < sum_list (f <$> ts).
Proof.
  revert i. induction ts as [|x ts IH]; intros [|i] Hi Hlt; simplify_eq/=; [lia|].
  specialize (IH i Hi Hlt). lia.
Qed.

Lemma step_decreases i s s' : step i s = Some s' → work_left s' < work_left s.
Proof.
  unfold step, work_left. intros Hstep.
  destruct (threads s !! i) as [t|] eqn:Hi; [|done].
  destruct (thread_step t (shared s) (constructions s)) as [[[t' st'] n']|] eqn:Ht; [|done].
  simplify_eq. cbn. eapply sum_list_insert_lt; eauto using thread_step_decreases.
Qed.

Lemma thread_step_inside t st n :
  constructible → holds_lock t = true → is_Some (thread_step t st n).
Proof.
  intros Hok Hin. destruct t; try done; cbn [thread_step]; eauto.
  destruct (constructible_call st Hok) as (self & st' & -> & _). eauto.
Qed.

Lemma not_all_done s :
  all_done s = false → ∃ i t, threads s !! i = Some t ∧ is_done t = false.
Proof.
  unfold all_done. induction (threads s) as [|x ts IH]; [done|]. cbn.
  destruct (is_done x) eqn:Hx; cbn.
  - intros (i & t & Hi & Ht)%IH. by exists (S i), t.
  - intros _. by exists 0, x.
Qed.

(** As long as a caller is not done, some thread can take a step. *)
Lemma Inv_progress s :
  constructible → Inv s → all_done s = false → ∃ i, is_Some (step i s).
Proof.
  intros Hok (_ & [_ Hheld] & _) (i & t & Hi & Ht)%not_all_done.
  assert (∀ j x, threads s !! j = Some x →
            is_Some (thread_step x (shared s) (constructions s)) →
            is_Some (step j s)) as Hlift.
  { intros j x Hj [[[x' st'] n'] Hx]. unfold step. rewrite Hj, Hx. eauto. }
  destruct t; try done;
    try (exists i; eapply Hlift; [done|]; first [by apply thread_step_inside | by cbn; eauto]).
  destruct (_lock (shared s)) eqn:Hlock.
  - destruct Hheld as [(j & x & Hj & Hx) _]; [done|].
    exists j. eapply Hlift; [done|]. by apply thread_step_inside.
  - exists i. eapply Hlift; [done|]. cbn. rewrite Hlock. eauto.
Qed.

Lemma step_length i s s' : step i s = Some s' → length (threads s') = length (threads s).
Proof.
  unfold step. intros Hstep.
  destruct (threads s !! i) as [t|]; [|done].
  destruct (thread_step _ _ _) as [[[t' st'] n']|]; [|done].
  simplify_eq. cbn. apply length_insert.
Qed.

Lemma run_length sched s : length (threads (run sched s)) = length (threads s).
Proof.
  revert s. induction sched as [|i sched IH]; intros s; cbn [run]; [done|].
  rewrite IH. destruct (step i s) as [s'|] eqn:Hstep; cbn; [|done].
  by eapply step_length.
Qed.

Lemma all_done_lookup s i t :
  all_done s = true → threads s !! i = Some t → ∃ r, t = Done r.
Proof.
  unfold all_done. rewrite forallb_forall. intros Hall Hi.
  assert (is_done t = true) as Ht.
  { apply Hall. apply list_elem_of_In. by eapply list_elem_of_lookup_2. }
  destruct t; try done. eauto.
Qed.

Lemma run_app sched1 sched2 s : run (sched1 ++ sched2) s = run sched2 (run sched1 s).
Proof.
  revert s. induction sched1 as [|i sched1 IH]; intros s; cbn [run app]; [done|].
  apply IH.
Qed.

(** From every state the callers can reach, the remaining callers can be
    scheduled to the end. *)
Lemma Inv_completes s :
  constructible → Inv s → ∃ rest, all_done (run rest s) = true.
Proof.
  intros Hok. remember (work_left s) as k eqn:Hk.
  revert s Hk. induction (lt_wf k) as [k _ IH]. intros s -> Hinv.
  destruct (all_done s) eqn:Hall; [by exists []|].
  destruct (Inv_progress s Hok Hinv Hall) as [i [s' Hstep]].
  destruct (IH (work_left s') (step_decreases _ _ _ Hstep) s' eq_refl) as [rest Hrest].
  { by eapply step_Inv. }
  exists (i :: rest). cbn [run]. by rewrite Hstep.
Qed.

(** C4, as the code has it: provided the constructor returns normally (no
    override file, or one that loads), in every interleaving of [n] threads
    that read [Settings.default] while the slot is empty the constructor is
    called at most once, every caller that has returned has received the
    instance that sits in the slot, no interleaving gets stuck before all
    callers are done, every step brings the callers closer to the end, every
    interleaving can be continued until all callers are done, and when all
    [n > 0] callers are done the constructor has been called exactly once and
    all of them hold the same instance. *)
Theorem one_construction_for_concurrent_callers n sched st :
  constructible → _settings st = PyNone → _lock st = false →
  let s := run sched (start n st) in
  (constructions s ≤ 1)%nat ∧
  (∀ i r, threads s !! i = Some (Done r) →
     ∃ self, r = Return (PySettings self) ∧
             _settings (shared s) = PySettings self ∧ constructions s = 1) ∧
  (all_done s = false → ∃ i s', step i s = Some s' ∧ work_left s' < work_left s) ∧
  (∃ rest, all_done (run (sched ++ rest) (start n st)) = true) ∧
  (0 < n → all_done s = true →
     constructions s = 1 ∧
     ∃ self, threads s = replicate n (Done (Return (PySettings self)))).
Proof.
  intros Hok Hnone Hfree s.
  assert (Inv s) as Hinv by (by apply run_Inv, start_Inv).
  assert (length (threads s) = n) as Hlen.
  { unfold s. rewrite run_length. cbn. apply length_replicate. }
  assert (∀ i r, threads s !! i = Some (Done r) →
            ∃ self, r = Return (PySettings self) ∧
                    _settings (shared s) = PySettings self ∧ constructions s = 1) as Hdone.
  { intros i r Hi. destruct Hinv as (Hthreads & _ & Hslot).
    destruct (Hthreads _ _ Hi) as [-> Hinst].
    destruct Hslot as [[Hempty _]|[_ Hone]]; [by rewrite Hempty in Hinst|].
    destruct (_settings (shared s)) as [| | | | |self|] eqn:Hs; try done. eauto. }
  split; [|split; [done|split; [|split]]].
  - destruct Hinv as (_ & _ & [[_ [->| [-> _]]]|[_ ->]]); lia.
  - intros Hnot. destruct (Inv_progress s Hok Hinv Hnot) as [i [s' Hstep]].
    exists i, s'. split; [done|]. by eapply step_decreases.
  - destruct (Inv_completes s Hok Hinv) as [rest Hrest].
    exists rest. by rewrite run_app.
  - intros Hpos Hall.
    destruct (lookup_lt_is_Some_2 (threads s) 0) as [t Ht]; [lia|].
    destruct (all_done_lookup _ _ _ Hall Ht) as [r ->].
    destruct (Hdone _ _ Ht) as (self & -> & Hslot & Hone).
    split; [done|]. exists self. rewrite <- Hlen. symmetry.
    apply replicate_as_elem_of. split; [done|].
    intros t [i Hi]%list_elem_of_lookup_1.
    destruct (all_done_lookup _ _ _ Hall Hi) as [r ->].
    destruct (Hdone _ _ Hi) as (self' & -> & Hslot' & _). congruence.
Qed.

Local Arguments Settings_call : simpl never.

(** A thread that runs alone does what the sequential reading of
    [SettingsMeta.__getattr__] does. *)
Lemma solo_thread_is_current st r st' :
  _lock st = false →
  current st = (r, st') → r ≠ Block →
  shared (run (replicate 8 0) (start 1 st)) = st' ∧
  threads (run (replicate 8 0) (start 1 st)) = [Done r].
Proof.
  intros Hfree. rewrite current_cases.
  destruct (truthy (_settings st)) eqn:Hslot.
  - intros ? _. simplify_eq. do 3 (cbn; rewrite ?Hslot). done.
  - rewrite Hfree.
    destruct (Settings_call PyNone (set__lock true st)) as [[new|e|] st''] eqn:Hcall;
      intros ? Hr; simplify_eq;
      do 6 (cbn; rewrite ?Hslot, ?Hfree, ?Hcall); done.
Qed.

(** ** Lookups right after a construction *)

Lemma get_after_construction_file settings_path defs key st :
  isfile w (resolve_settings_path settings_path) = Return true →
  source w (resolve_settings_path settings_path) = Defines defs →
  get_after_construction settings_path key st =
    Return (ordered_lookup (loaded_namespace defs st) DEFAULT_SETTINGS key).
Proof.
  intros Hfile Hsrc. unfold get_after_construction, bind.
  rewrite (Settings_call_file _ _ _ Hfile Hsrc). cbn [getattr_of].
  erewrite Settings___getattr___spec by apply lookup_insert_eq.
  cbn. by rewrite lookup_insert_eq.
Qed.

(** ** An obsolete name in the override file *)


(** * Further properties of the code *)

(** ** The slot, sequentially *)



(** The constructor does not look at the lock. *)
Lemma Settings_call_lock settings_path b st :
  Settings_call settings_path (set__lock b st) =
    ((Settings_call settings_path st).1, set__lock b (Settings_call settings_path st).2).
Proof.
  rewrite !Settings_call_cases.
  destruct (isfile w _) as [[]|e|]; [destruct (source w _)|..]; done.
Qed.

(** X1: an assignment [Settings.default = s] of a [Settings] instance
    returns, touches nothing but the slot, and the next [Settings.default]
    returns [s] itself, without a construction and without a change of
    state. *)
Theorem replace_then_current self st :
  _lock st = false →
  (replace (PySettings self) st).1 = Return tt ∧
  (replace (PySettings self) st).2 = set__settings (PySettings self) st ∧
  current (replace (PySettings self) st).2 =
    (Return (PySettings self), (replace (PySettings self) st).2).
Proof.
  intros Hfree. rewrite replace_cases. cbn [isinstance_Settings]. rewrite Hfree.
  cbn [fst snd]. split; [done|].
  assert (set__lock false (set__settings (PySettings self) (set__lock true st)) =
          set__settings (PySettings self) st) as ->.
  { destruct st. cbn in *. by subst. }
  split; [done|]. by rewrite current_cases.
Qed.

(** X2: the first [Settings.default] on an empty slot is a construction
    without argument followed by the installation of the new instance: it
    returns the instance [Settings()] builds, which is none of the existing
    ones, leaves it in the slot with the lock free, and the heaps, the log
    and the warnings are those the constructor leaves. *)
Theorem first_access_constructs_and_installs st :
  constructible → _settings st = PyNone → _lock st = false →
  ∃ self st',
    current st = (Return (PySettings self), st') ∧
    (Settings_call PyNone st).1 = Return (PySettings self) ∧
    st' = set__settings (PySettings self) (Settings_call PyNone st).2 ∧
    instances st !! self = None ∧
    is_Some (instances st' !! self) ∧
    _settings st' = PySettings self ∧ _lock st' = false.
Proof.
  intros Hok Hnone Hfree.
  destruct (constructible_call st Hok) as (self & st1 & Hcall & Hslot & Hlock).
  pose proof (Settings_call_returns PyNone st (PySettings self)) as Hret.
  rewrite Hcall in Hret. destruct (Hret eq_refl) as [Hself Hin].
  exists self, (set__settings (PySettings self) st1).
  rewrite current_cases, Hnone, Hfree. cbn [truthy].
  rewrite Settings_call_lock, Hcall. cbn [fst snd].
  assert (set__lock false (set__settings (PySettings self) (set__lock true st1)) =
          set__settings (PySettings self) st1) as ->.
  { destruct st1. cbn in *. rewrite Hfree in Hlock. by subst. }
  split; [done|]. split; [done|]. split; [done|].
  injection Hself as ->. split; [apply not_elem_of_dom, is_fresh|].
  split; [exact Hin|]. split; [done|]. cbn. by rewrite Hlock.
Qed.

(** X3: [Settings.default] is idempotent: whatever a call returns is in the
    slot afterwards, and the next call returns the same object and changes
    nothing. *)
Theorem current_is_idempotent st v st' :
  _lock st = false →
  current st = (Return v, st') →
  _settings st' = v ∧ _lock st' = false ∧ current st' = (Return v, st').
Proof.
  intros Hfree. rewrite current_cases.
  destruct (truthy (_settings st)) eqn:Hslot.
  - intros [= <- <-]. split; [done|]. split; [done|].
    by rewrite current_cases, Hslot.
  - rewrite Hfree, Settings_call_lock.
    pose proof (Settings_call_returns PyNone st) as Hret.
    destruct (Settings_call PyNone st) as [[new|e|] st1]; cbn [fst snd] in *; [|done..].
    intros [= <- <-]. destruct (Hret new eq_refl) as [-> _].
    split; [done|]. split; [done|]. by rewrite current_cases.
Qed.

Lemma construction_raises_call e st :
  construction_raises e → Settings_call PyNone st = (Raise e, st).
Proof.
  intros Hfail. rewrite Settings_call_cases. fold ambient_path.
  by destruct Hfail as [->|[-> ->]].
Qed.


(** ** The constructor *)


(** X6: constructing a [Settings] does not make it the singleton: the slot
    and the lock are as before, and on an empty slot the next
    [Settings.default] constructs and returns another instance. *)
Theorem explicit_construction_is_not_the_singleton settings_path st self st1 :
  constructible → _settings st = PyNone → _lock st = false →
  Settings_call settings_path st = (Return (PySettings self), st1) →
  _settings st1 = PyNone ∧ _lock st1 = false ∧
  ∃ self' st2, current st1 = (Return (PySettings self'), st2) ∧ self' ≠ self.
Proof.
  intros Hok Hnone Hfree Hcall.
  pose proof (Settings_call_keeps settings_path st) as [_ [Hslot Hlock]].
  pose proof (Settings_call_returns settings_path st (PySettings self)) as Hret.
  rewrite Hcall in *. cbn [fst snd] in *.
  destruct (Hret eq_refl) as [[= Hself] Hin]. rewrite <- Hself in Hin.
  rewrite Hnone in Hslot. rewrite Hfree in Hlock. split; [done|]. split; [done|].
  destruct (constructible_call st1 Hok) as (self' & st2 & Hcall' & _).
  pose proof (Settings_call_returns PyNone st1 (PySettings self')) as Hret'.
  rewrite Hcall' in Hret'. destruct (Hret' eq_refl) as [[= ->] _].
  eexists _, _. rewrite current_cases, Hslot, Hlock. cbn [truthy].
  rewrite Settings_call_lock, Hcall'. cbn [fst snd]. split; [done|].
  intros Heq. apply (is_fresh (dom (instances st1))). rewrite Heq.
  by apply elem_of_dom.
Qed.

(** ** The slot holds [None] or an instance *)

Lemma slot_valid_same st st' : _settings st' = _settings st → slot_valid st → slot_valid st'.
Proof. unfold slot_valid. by intros ->. Qed.

Lemma current_slot_valid st :
  slot_valid st →
  slot_valid (current st).2 ∧
  ∀ v, (current st).1 = Return v → isinstance_Settings v = true.
Proof.
  intros Hvalid. rewrite current_cases.
  destruct (truthy (_settings st)) eqn:Hslot.
  - split; [done|]. intros v [= <-].
    destruct Hvalid as [Hnone|Hinst]; [by rewrite Hnone in Hslot|done].
  - destruct (_lock st); [by split|].
    pose proof (Settings_call_returns PyNone (set__lock true st)) as Hret.
    pose proof (Settings_call_keeps PyNone (set__lock true st)) as [_ [Hkeep _]].
    destruct (Settings_call PyNone (set__lock true st)) as [[new|e|] st1];
      cbn [fst snd] in *.
    + destruct (Hret new eq_refl) as [-> _]. split; [by right|]. by intros v [= <-].
    + split; [|done]. eapply slot_valid_same; [|exact Hvalid]. done.
    + split; [|done]. eapply slot_valid_same; [|exact Hvalid]. done.
Qed.

Lemma exec_op_slot_valid op st : slot_valid st → slot_valid (exec_op op st).2.
Proof.
  intros Hvalid. destruct op as [self key| |value|self|settings_path]; cbn [exec_op].
  - by rewrite Settings___getattr___pure.
  - by apply current_slot_valid.
  - unfold bind. pose proof (replace_cases value st) as Hcases.
    destruct (replace value st) as [[[]|e|] st'] eqn:Hrep; cbn [snd];
      destruct (isinstance_Settings value) eqn:Hinst, (_lock st); simplify_eq; try done;
      by right.
  - eapply slot_valid_same; [|exact Hvalid]. done.
  - pose proof (Settings_call_keeps settings_path st) as [_ [Hkeep _]].
    by eapply slot_valid_same.
Qed.

Lemma exec_ops_slot_valid ops st : slot_valid st → slot_valid (exec_ops ops st).
Proof.
  revert st. induction ops as [|op ops IH]; intros st Hvalid; cbn [exec_ops]; [done|].
  pose proof (exec_op_slot_valid op st Hvalid) as Hop.
  destruct (exec_op op st) as [[v|e|] st']; cbn [snd] in Hop; auto.
Qed.

(** X7: the module's operations keep the slot well-formed: after any sequence
    of lookups, accesses and assignments to [Settings.default], sessions and
    constructions, the slot holds [None] or a [Settings] instance, and what
    [Settings.default] returns is a [Settings] instance. *)
Theorem slot_holds_none_or_an_instance ops st :
  slot_valid st →
  slot_valid (exec_ops ops st) ∧
  ∀ v st', current (exec_ops ops st) = (Return v, st') → isinstance_Settings v = true.
Proof.
  intros Hvalid. pose proof (exec_ops_slot_valid ops st Hvalid) as Hafter.
  split; [done|]. intros v st' Hcur.
  apply (proj2 (current_slot_valid _ Hafter)). by rewrite Hcur.
Qed.

(** ** One module object for all override files *)

Lemma _load_module_exec_source name path : _load_module name path = exec_source name path.
Proof.
  unfold _load_module, SourceFileLoader_load_module, imp_load_source.
  by destruct (version_at_least _ _ _).
Qed.

(** X8: two loads under one name give one module object: the second load
    returns the object of the first, leaves [sys.modules] as it is, and every
    name the module had bound is still bound afterwards, with the value of the
    second file where that binds it and with the old value where it does
    not. *)
Theorem loads_reuse_the_registered_module name path1 path2 st v1 st1 v2 st2 :
  _load_module name path1 st = (Return v1, st1) →
  _load_module name path2 st1 = (Return v2, st2) →
  v2 = v1 ∧ sys_modules st2 = sys_modules st1 ∧
  ∃ defs2, source w path2 = Defines defs2 ∧
    ∀ key, namespace_of st2 v1 !! key =
             match defs2 !! key with
             | Some val => Some val
             | None => namespace_of st1 v1 !! key
             end.
Proof.
  rewrite !_load_module_exec_source. unfold exec_source.
  destruct (source w path1) as [defs1|e1]; [|done].
  destruct (source w path2) as [defs2|e2] eqn:Hsrc2;
    [|destruct (sys_modules st !! name); by intros [= <- <-]].
  intros H1 H2.
  assert (∃ m, v1 = PyModule m ∧ sys_modules st1 !! name = Some m) as (m & -> & Hm).
  { destruct (sys_modules st !! name) as [m|] eqn:Hname; injection H1 as <- <-;
      eexists; (split; [done|]); cbn; [done|apply lookup_insert_eq]. }
  rewrite Hm in H2. injection H2 as <- <-. split; [done|]. split; [done|].
  exists defs2. split; [done|]. intros key. cbn. rewrite lookup_insert_eq. cbn.
  rewrite lookup_union. by destruct (defs2 !! key), (default ∅ (modules st1 !! m) !! key).
Qed.

Lemma shares_module_same st st' :
  instances st' = instances st → sys_modules st' = sys_modules st →
  shares_module st → shares_module st'.
Proof. unfold shares_module. by intros -> ->. Qed.

Lemma shares_module_loaded st self o m :
  shares_module st → instances st !! self = Some o → _override_settings o = PyModule m →
  loaded_module st = m.
Proof.
  intros Hshare Hself Hov. unfold loaded_module. by rewrite (Hshare _ _ _ Hself Hov).
Qed.

Lemma Settings_call_shares_module settings_path st :
  shares_module st → shares_module (Settings_call settings_path st).2.
Proof.
  intros Hshare. rewrite Settings_call_cases.
  destruct (isfile w _) as [[]|e|]; [destruct (source w _)|..]; cbn [snd]; try done.
  - intros self o m. cbn. rewrite lookup_insert.
    destruct (decide _) as [_|_].
    + intros [= <-] [= <-]. apply lookup_insert_eq.
    + intros Hself Hov. rewrite (shares_module_loaded _ _ _ _ Hshare Hself Hov).
      apply lookup_insert_eq.
  - intros self o m. cbn. rewrite lookup_insert.
    destruct (decide _) as [_|_]; [by intros [= <-]|]. apply Hshare.
Qed.

Lemma current_shares_module st : shares_module st → shares_module (current st).2.
Proof.
  intros Hshare. rewrite current_cases.
  destruct (truthy (_settings st)); [done|]. destruct (_lock st); [done|].
  rewrite Settings_call_lock.
  pose proof (Settings_call_shares_module PyNone st Hshare) as Hcall.
  destruct (Settings_call PyNone st) as [[new|e|] st1]; cbn [fst snd] in *;
    by eapply shares_module_same.
Qed.

Lemma exec_op_shares_module op st : shares_module st → shares_module (exec_op op st).2.
Proof.
  intros Hshare. destruct op as [self key| |value|self|settings_path]; cbn [exec_op].
  - by rewrite Settings___getattr___pure.
  - by apply current_shares_module.
  - unfold bind. pose proof (replace_cases value st) as Hcases.
    destruct (replace value st) as [[[]|e|] st'] eqn:Hrep; cbn [snd];
      destruct (isinstance_Settings value), (_lock st); simplify_eq; try done;
      by eapply shares_module_same.
  - by eapply shares_module_same.
  - by apply Settings_call_shares_module.
Qed.

Lemma exec_ops_shares_module ops st : shares_module st → shares_module (exec_ops ops st).
Proof.
  revert st. induction ops as [|op ops IH]; intros st Hshare; cbn [exec_ops]; [done|].
  pose proof (exec_op_shares_module op st Hshare) as Hop.
  destruct (exec_op op st) as [[v|e|] st']; cbn [snd] in Hop; auto.
Qed.

(** X9: all [Settings] instances that have an override source share one
    module object, whatever files they were constructed from: the module's
    operations keep every override reference equal to the entry
    [__pynamodb_override_settings__] of [sys.modules]. *)
Theorem override_instances_share_one_module ops st :
  shares_module st →
  shares_module (exec_ops ops st) ∧
  ∀ self1 self2 o1 o2 m1 m2,
    instances (exec_ops ops st) !! self1 = Some o1 →
    instances (exec_ops ops st) !! self2 = Some o2 →
    _override_settings o1 = PyModule m1 → _override_settings o2 = PyModule m2 →
    m1 = m2.
Proof.
  intros Hshare. pose proof (exec_ops_shares_module ops st Hshare) as Hafter.
  split; [done|]. intros self1 self2 o1 o2 m1 m2 H1 H2 Hm1 Hm2.
  pose proof (Hafter _ _ _ H1 Hm1). pose proof (Hafter _ _ _ H2 Hm2). congruence.
Qed.

(** X10: a later construction from another override file changes what the
    instances constructed before answer: a name the new file binds is
    answered with the new file's value by every earlier instance that has an
    override source, and a name the new file does not bind is answered as
    before. *)
Theorem later_file_rebinds_earlier_instances settings_path defs self o m key st :
  shares_module st →
  instances st !! self = Some o → _override_settings o = PyModule m →
  isfile w (resolve_settings_path settings_path) = Return true →
  source w (resolve_settings_path settings_path) = Defines defs →
  (∀ v, defs !! key = Some v →
     (Settings___getattr__ self key (Settings_call settings_path st).2).1 = Return v) ∧
  (defs !! key = None →
     (Settings___getattr__ self key (Settings_call settings_path st).2).1 =
     (Settings___getattr__ self key st).1).
Proof.
  intros Hshare Hself Hov Hfile Hsrc.
  pose proof (shares_module_loaded _ _ _ _ Hshare Hself Hov) as Hloaded.
  pose proof (Hshare _ _ _ Hself Hov) as Hreg.
  rewrite (Settings_call_file _ _ _ Hfile Hsrc). cbn [snd].
  assert (instances (state_with_file (fresh (dom (instances st)))
            (resolve_settings_path settings_path) defs st) !! self = Some o) as Hself'.
  { by eapply keeps_instances_fresh. }
  rewrite (Settings___getattr___spec _ _ _ _ Hself'), (Settings___getattr___spec _ _ _ _ Hself).
  rewrite Hov. cbn [fst namespace_of modules state_with_file].
  rewrite Hloaded, lookup_insert_eq.
  change (default ∅ (Some (loaded_namespace defs st))) with (loaded_namespace defs st).
  unfold loaded_namespace. rewrite Hreg. unfold ordered_lookup.
  rewrite lookup_union. split.
  - intros v ->. by destruct (default ∅ (modules st !! m) !! key).
  - intros ->. by destruct (default ∅ (modules st !! m) !! key).
Qed.

(** X11: an instance constructed from an override file also answers with the
    names an earlier override file left in the module: a name the earlier
    file bound and the new file does not bind is looked up with the earlier
    value, and when it is an obsolete name the construction warns about it
    again. *)
Theorem new_instance_inherits_earlier_names settings_path defs m old key v st :
  sys_modules st !! override_module_name = Some m →
  modules st !! m = Some old →
  isfile w (resolve_settings_path settings_path) = Return true →
  source w (resolve_settings_path settings_path) = Defines defs →
  defs !! key = None → old !! key = Some v →
  get_after_construction settings_path key st = Return v ∧
  ∃ emitted,
    warnings (Settings_call settings_path st).2 = (warnings st ++ emitted)%list ∧
    (key ∈ OBSOLETE_META_ATTRIBUTES → obsolete_warning key ∈ emitted).
Proof.
  intros Hreg Hold Hfile Hsrc Hnew Hkey.
  assert (loaded_namespace defs st !! key = Some v) as Hloaded.
  { unfold loaded_namespace. rewrite Hreg, Hold. cbn.
    rewrite lookup_union, Hnew, Hkey. done. }
  split.
  - rewrite (get_after_construction_file _ _ _ _ Hfile Hsrc).
    unfold ordered_lookup. by rewrite Hloaded.
  - rewrite (Settings_call_file _ _ _ Hfile Hsrc). eexists. split; [reflexivity|].
    intros Hobs. apply list_elem_of_fmap_2, list_elem_of_filter.
    split; [|done]. by rewrite Hloaded.
Qed.

(** ** Sessions *)

Lemma exec_op_sessions op st : (sessions st ≤ sessions (exec_op op st).2)%nat.
Proof.
  destruct op as [self key| |value|self|settings_path]; cbn [exec_op].
  - by rewrite Settings___getattr___pure.
  - rewrite current_cases.
    destruct (truthy (_settings st)); [done|]. destruct (_lock st); [done|].
    rewrite Settings_call_lock, Settings_call_cases.
    destruct (isfile w _) as [[]|e|]; [destruct (source w _)|..]; done.
  - unfold bind. pose proof (replace_cases value st) as Hcases.
    destruct (replace value st) as [[[]|e|] st'] eqn:Hrep; cbn [snd];
      destruct (isinstance_Settings value), (_lock st); by simplify_eq.
  - cbn. lia.
  - rewrite Settings_call_cases.
    destruct (isfile w _) as [[]|e|]; [destruct (source w _)|..]; done.
Qed.

Lemma exec_ops_sessions ops st : (sessions st ≤ sessions (exec_ops ops st))%nat.
Proof.
  revert st. induction ops as [|op ops IH]; intros st; cbn [exec_ops]; [done|].
  pose proof (exec_op_sessions op st) as Hop.
  destruct (exec_op op st) as [[v|e|] st']; cbn [snd] in Hop;
    try (specialize (IH st')); lia.
Qed.

(** X12: [get_session] never hands out a session twice: it returns for any
    [self], constructed or not, without reading a setting, and the session
    of a later call, whatever the module did in between, is another one than
    that of an earlier call. *)
Theorem sessions_are_never_reused self1 self2 ops st :
  ∃ n1 n2,
    (get_session self1 st).1 = Return (PySession n1) ∧
    (get_session self2 (exec_ops ops (get_session self1 st).2)).1 = Return (PySession n2) ∧
    n1 < n2.
Proof.
  exists (sessions st), (sessions (exec_ops ops (get_session self1 st).2)).
  split; [done|]. split; [done|].
  pose proof (exec_ops_sessions ops (get_session self1 st).2) as Hmono.
  cbn in Hmono |- *. lia.
Qed.

(** ** Threads, whatever the constructor does *)

Lemma step_lock_ok i s s' :
  lock_ok (shared s) (threads s) → step i s = Some s' →
  lock_ok (shared s') (threads s').
Proof.
  intros Hlock Hstep. unfold step in Hstep.
  destruct s as [st ts n]. cbn [shared threads constructions] in *.
  destruct (ts !! i) as [t|] eqn:Hi; [|done].
  destruct t; cbn [thread_step] in Hstep.
  - simplify_eq. cbn. by eapply lock_ok_same_side.
  - simplify_eq. cbn. eapply lock_ok_same_side; eauto. by destruct (truthy settings).
  - destruct (_lock st) eqn:Hfree; simplify_eq. cbn. by eapply lock_ok_acquire.
  - simplify_eq. cbn. eapply lock_ok_same_side; eauto. by destruct (negb _).
  - pose proof (Settings_call_keeps PyNone st) as [_ [_ Hlk]].
    destruct (Settings_call PyNone st) as [[new|e|] st1]; simplify_eq; cbn in *;
      by eapply lock_ok_same_side.
  - simplify_eq. cbn. by eapply lock_ok_same_side.
  - simplify_eq. cbn. by eapply lock_ok_same_side.
  - simplify_eq. cbn. by eapply lock_ok_release.
  - done.
Qed.

(** X13: mutual exclusion holds in every environment and from every state in
    which the lock is free, whether constructions return or raise: in every
    interleaving at most one thread is inside the [with self._lock] block of
    [SettingsMeta.__getattr__], and the lock is held exactly while one is. *)
Theorem at_most_one_thread_inside n sched st :
  _lock st = false →
  let s := run sched (start n st) in
  (∀ i j t t', threads s !! i = Some t → threads s !! j = Some t' →
     holds_lock t = true → holds_lock t' = true → i = j) ∧
  (_lock (shared s) = true ↔ ∃ i t, threads s !! i = Some t ∧ holds_lock t = true).
Proof.
  intros Hfree s.
  assert (lock_ok (shared (start n st)) (threads (start n st))) as Hstart.
  { assert (∀ i t, replicate n AtFastRead !! i = Some t → t = AtFastRead) as Hall
      by (by intros i t [-> _]%lookup_replicate).
    split; cbn.
    - by intros i j t t' ->%Hall.
    - rewrite Hfree. split; [done|]. by intros (i & t & ->%Hall & ?). }
  subst s. revert Hstart. generalize (start n st).
  induction sched as [|i sched IH]; intros s Hlock; cbn [run]; [done|].
  apply IH. destruct (step i s) as [s'|] eqn:Hstep; cbn; [|done].
  by eapply step_lock_ok.
Qed.

(** X14: the fast path takes no lock.  Once the slot holds an instance,
    [Settings.default] returns it and changes nothing even while the lock is
    held, and a thread that starts reading [Settings.default] is done after
    its two steps, whatever the other threads are doing. *)
Theorem filled_slot_is_read_without_the_lock :
  (∀ st, truthy (_settings st) = true → current st = (Return (_settings st), st)) ∧
  (∀ i s, threads s !! i = Some AtFastRead → truthy (_settings (shared s)) = true →
     run [i; i] s =
       {| shared := shared s;
          threads := <[i := Done (Return (_settings (shared s)))]> (threads s);
          constructions := constructions s |}).
Proof.
  split.
  - intros st Hslot. by rewrite current_cases, Hslot.
  - intros i s Hi Hslot.
    assert (step i s =
              Some {| shared := shared s;
                      threads := <[i := AtFastTest (_settings (shared s))]> (threads s);
                      constructions := constructions s |}) as Hfirst.
    { unfold step. by rewrite Hi. }
    cbn [run]. rewrite Hfirst. cbn [default from_option id].
    unfold step. cbn [shared threads constructions].
    rewrite list_lookup_insert_eq by (by eapply lookup_lt_Some).
    cbn [thread_step]. by rewrite Hslot, list_insert_insert_eq.
Qed.

Lemma sum_list_insert (f : Thread → nat) (ts : list Thread) i t t' :
  ts !! i = Some t →
  sum_list (f <$> <[i := t']> ts) + f t = sum_list (f <$> ts) + f t'.
Proof.
  revert i. induction ts as [|x ts IH]; intros [|i] Hi; simplify_eq/=; [lia|].
  specialize (IH i Hi). lia.
Qed.

Lemma step_Inv_failing e i s s' :
  construction_raises e → Inv_failing e s → step i s = Some s' → Inv_failing e s'.
Proof.
  intros Hfail (Hnone & Hthreads & Hcount) Hstep. unfold step in Hstep.
  destruct s as [st ts n]. cbn [shared threads constructions] in *.
  destruct (ts !! i) as [t|] eqn:Hi; [|done].
  pose proof (Hthreads _ _ Hi) as Ht.
  assert (∀ t' st' n',
            _settings st' = PyNone → thread_failing e t' →
            n' + has_attempted t = n + has_attempted t' →
            Inv_failing e {| shared := st'; threads := <[i := t']> ts; constructions := n' |})
    as Hclose.
  { intros t' st' n' Hst' Ht' Hn'. split; [done|]. split; cbn.
    - intros j x [[-> ->]|[_ Hj]]%lookup_insert_thread; eauto.
    - pose proof (sum_list_insert has_attempted ts i t t' Hi). lia. }
  destruct t; cbn [thread_step] in Hstep; cbn [thread_failing] in Ht.
  - simplify_eq. by apply Hclose.
  - simplify_eq. apply Hclose; [done| |done]. by subst.
  - destruct (_lock st); simplify_eq. by apply Hclose.
  - simplify_eq. rewrite Hnone. by apply Hclose.
  - rewrite (construction_raises_call e st Hfail) in Hstep. simplify_eq.
    apply Hclose; [done|done|cbn; lia].
  - done.
  - done.
  - simplify_eq. by apply Hclose.
  - done.
Qed.

Lemma all_done_attempted (ts : list Thread) :
  forallb is_done ts = true → sum_list (has_attempted <$> ts) = length ts.
Proof.
  induction ts as [|t ts IH]; [done|]. cbn.
  destruct t; cbn; try done. intros Hall. by rewrite IH.
Qed.

(** X15: a failure of the constructor is not remembered.  While the
    construction without argument raises [e], in every interleaving of [n]
    callers of [Settings.default] on an empty slot the slot stays empty, every
    caller that is done has received [e], and when all are done the
    constructor has been called [n] times, once by each caller. *)
Theorem failed_constructions_are_all_repeated e n sched st :
  construction_raises e → _settings st = PyNone →
  let s := run sched (start n st) in
  _settings (shared s) = PyNone ∧
  (∀ i r, threads s !! i = Some (Done r) → r = Raise e) ∧
  (all_done s = true → constructions s = n).
Proof.
  intros Hfail Hnone s.
  assert (Inv_failing e s) as (Hslot & Hthreads & Hcount).
  { assert (Inv_failing e (start n st)) as Hstart.
    { split; [done|]. split; cbn.
      - by intros i t [-> _]%lookup_replicate.
      - induction n as [|n IH]; [done|]. cbn. by rewrite <- IH. }
    subst s. revert Hstart. generalize (start n st).
    induction sched as [|i sched IH]; intros s Hinv; cbn [run]; [done|].
    apply IH. destruct (step i s) as [s'|] eqn:Hstep; cbn; [|done].
    by eapply step_Inv_failing. }
  split; [done|]. split.
  - intros i r Hi. apply (Hthreads _ _ Hi).
  - intros Hall. rewrite Hcount, (all_done_attempted _ Hall).
    unfold s. rewrite run_length. cbn. apply length_replicate.
Qed.

(** ** The lock, sequentially *)

Lemma Settings_call_returns_or_raises settings_path st :
  (∀ p, isfile w p ≠ Block) → (Settings_call settings_path st).1 ≠ Block.
Proof.
  intros Hstat. rewrite Settings_call_cases.
  pose proof (Hstat (resolve_settings_path settings_path)) as Hp.
  destruct (isfile w _) as [[]|e|]; [destruct (source w _)|..]; done.
Qed.

Lemma exec_op_lock_free op st :
  (∀ p, isfile w p ≠ Block) → _lock st = false →
  (exec_op op st).1 ≠ Block ∧ _lock (exec_op op st).2 = false.
Proof.
  intros Hstat Hfree. destruct op as [self key| |value|self|settings_path]; cbn [exec_op].
  - rewrite Settings___getattr___pure. split; [|done].
    destruct (instances st !! self) as [o|] eqn:Hself.
    + by rewrite (Settings___getattr___spec _ _ _ _ Hself).
    + by rewrite (Settings___getattr___unconstructed _ _ _ Hself).
  - rewrite current_cases. destruct (truthy (_settings st)); [done|].
    rewrite Hfree, Settings_call_lock.
    pose proof (Settings_call_returns_or_raises PyNone st Hstat) as Hcall.
    by destruct (Settings_call PyNone st) as [[new|e|] st1].
  - unfold bind. rewrite replace_cases, Hfree.
    by destruct (isinstance_Settings value).
  - done.
  - split; [by apply Settings_call_returns_or_raises|].
    pose proof (Settings_call_keeps settings_path st) as [_ [_ Hlock]]. by rewrite Hlock.
Qed.

(** X17: one caller never finds the lock held.  Provided [os.path.isfile]
    returns or raises, after any sequence of the module's operations started
    with the lock free the lock is free again, also when a construction
    inside [Settings.default] has raised, and no operation waits. *)
Theorem lock_is_always_released ops st :
  (∀ p, isfile w p ≠ Block) → _lock st = false →
  _lock (exec_ops ops st) = false ∧
  ∀ op, (exec_op op (exec_ops ops st)).1 ≠ Block.
Proof.
  intros Hstat Hfree.
  assert (_lock (exec_ops ops st) = false) as Hafter.
  { revert st Hfree. induction ops as [|op ops IH]; intros st Hfree; cbn [exec_ops]; [done|].
    destruct (exec_op_lock_free op st Hstat Hfree) as [Hret Hlock].
    destruct (exec_op op st) as [[v|e|] st1]; cbn [fst snd] in *; auto. }
  split; [done|]. intros op. by apply exec_op_lock_free.
Qed.

End Program.

(** * Properties that compare two environments *)

Section Environments.

Variable OBSOLETE_META_ATTRIBUTES : list string.

(** C10: with a true [settings_path] argument (a non-empty string, say) the
    constructor does not depend on [os.environ], nor on what is at any other
    path, the fixed default path included: two environments that agree on the
    file at [settings_path] give the same result.  With a false argument
    ([None], the empty string, ...) the constructor proceeds with the value of
    [PYNAMODB_CONFIG] when the variable is set and with
    ['/etc/pynamodb/global_default_settings.py'] when it is not, so that every
    false argument does what the absent argument does. *)
Theorem explicit_path_ignores_environment (w : World) settings_path st :
  (truthy settings_path = true →
     ∀ w', isfile w' settings_path = isfile w settings_path →
           source w' settings_path = source w settings_path →
           Settings_call OBSOLETE_META_ATTRIBUTES w' settings_path st =
           Settings_call OBSOLETE_META_ATTRIBUTES w settings_path st) ∧
  (truthy settings_path = false →
     ∀ self,
       Settings___init__ OBSOLETE_META_ATTRIBUTES w self settings_path st =
       init_from_path OBSOLETE_META_ATTRIBUTES w self
         (PyStr match environ w !! "PYNAMODB_CONFIG" with
                | Some path => path
                | None => "/etc/pynamodb/global_default_settings.py"
                end) st) ∧
  (truthy settings_path = false →
     Settings_call OBSOLETE_META_ATTRIBUTES w settings_path st =
     Settings_call OBSOLETE_META_ATTRIBUTES w PyNone st).
Proof.
  split; [|split].
  - intros Htrue w' Hfile Hsrc. rewrite !Settings_call_cases.
    unfold resolve_settings_path. rewrite Htrue. cbn [negb].
    by rewrite Hfile, Hsrc.
  - intros Hfalse self. unfold Settings___init__, resolve_settings_path, getenv.
    by rewrite Hfalse.
  - intros Hfalse. rewrite !Settings_call_cases.
    unfold resolve_settings_path. by rewrite Hfalse.
Qed.

(** X16: when [PYNAMODB_CONFIG] is set, be it to the empty string, a
    construction without a true argument looks at the path the variable
    names and at no other: two environments that agree on the variable and
    on the file at that path give the same result, whatever is at the fixed
    default path; and when that path is no file, the instance has no
    override source. *)
Theorem set_variable_hides_the_default_path (w1 w2 : World) settings_path path st :
  truthy settings_path = false →
  environ w1 !! "PYNAMODB_CONFIG" = Some path →
  environ w2 !! "PYNAMODB_CONFIG" = Some path →
  isfile w1 (PyStr path) = isfile w2 (PyStr path) →
  source w1 (PyStr path) = source w2 (PyStr path) →
  Settings_call OBSOLETE_META_ATTRIBUTES w1 settings_path st =
  Settings_call OBSOLETE_META_ATTRIBUTES w2 settings_path st ∧
  (isfile w1 (PyStr path) = Return false →
   ∃ self,
     (Settings_call OBSOLETE_META_ATTRIBUTES w1 settings_path st).1 =
       Return (PySettings self) ∧
     instances (Settings_call OBSOLETE_META_ATTRIBUTES w1 settings_path st).2 !! self =
       Some {| _override_settings := PyNone |}).
Proof.
  intros Hfalse Henv1 Henv2 Hfile Hsrc.
  assert (resolve_settings_path w1 settings_path = PyStr path) as Hp1.
  { unfold resolve_settings_path, getenv. by rewrite Hfalse, Henv1. }
  assert (resolve_settings_path w2 settings_path = PyStr path) as Hp2.
  { unfold resolve_settings_path, getenv. by rewrite Hfalse, Henv2. }
  split.
  - rewrite !Settings_call_cases. cbn zeta. by rewrite Hp1, Hp2, Hfile, Hsrc.
  - intros Hno. rewrite Settings_call_cases. cbn zeta. rewrite Hp1, Hno. cbn.
    eexists. split; [done|]. apply lookup_insert_eq.
Qed.

End Environments.

(** * Witnesses, counterexamples and runs of the code *)

Lemma defaults_without_override_witness :
  isfile bare_world (resolve_settings_path bare_world PyNone) = Return false ∧
  ∃ self st',
    Settings_call example_obsolete_names bare_world PyNone empty_state =
      (Return (PySettings self), st') ∧
    (∀ key v, (key, v) ∈ documented_defaults →
       Settings___getattr__ self key st' = (Return v, st')) ∧
    Settings___getattr__ self "region" st' = (Return (PyStr "us-east-1"), st') ∧
    Settings___getattr__ self "max_retry_attempts" st' = (Return (PyInt 3), st').
Proof.
  split; [reflexivity|].
  apply (defaults_without_override example_obsolete_names bare_world PyNone empty_state).
  reflexivity.
Defined.

Lemma override_first_then_defaults_witness :
  instances override_state !! 0 = Some {| _override_settings := PyModule 0 |} ∧
  Settings___getattr__ 0 "region" override_state =
    (Return (PyStr "eu-west-1"), override_state) ∧
  Settings___getattr__ 0 "max_retry_attempts" override_state =
    (Return (PyInt 3), override_state).
Proof.
  assert (instances override_state !! 0 = Some {| _override_settings := PyModule 0 |})
    as Hself by reflexivity.
  split; [exact Hself|]. split.
  - apply (proj1 (override_first_then_defaults 0 _ "region" override_state Hself)
             0 (<["region" := PyStr "eu-west-1"]>
                (<["session_cls" := PyStr "requests.Session"]> ∅))); reflexivity.
  - apply (proj2 (override_first_then_defaults 0 _ "max_retry_attempts" override_state Hself));
      reflexivity.
Defined.

Lemma unknown_key_gives_none_witness :
  instances override_state !! 0 = Some {| _override_settings := PyModule 0 |} ∧
  namespace_of override_state (PyModule 0) !! "no_such_setting" = None ∧
  DEFAULT_SETTINGS !! "no_such_setting" = None ∧
  Settings___getattr__ 0 "no_such_setting" override_state = (Return PyNone, override_state).
Proof.
  split; [reflexivity|]. split; [reflexivity|]. split; [reflexivity|].
  apply (unknown_key_gives_none 0 {| _override_settings := PyModule 0 |}
           "no_such_setting" override_state); reflexivity.
Defined.

Lemma replace_rejects_non_settings_witness :
  isinstance_Settings (PyStr "eu-west-1") = false ∧
  replace (PyStr "eu-west-1") bare_state =
    (Raise (ValueError "'default' must be an instance of Settings"), bare_state) ∧
  _settings (replace (PyStr "eu-west-1") bare_state).2 = _settings bare_state.
Proof.
  split; [reflexivity|].
  apply (replace_rejects_non_settings (PyStr "eu-west-1") bare_state). reflexivity.
Defined.
Lemma one_construction_for_concurrent_callers_witness :
  constructible bare_world ∧ _settings empty_state = PyNone ∧ _lock empty_state = false ∧
  let s := run example_obsolete_names bare_world alternating_schedule (start 2 empty_state) in
  (constructions s ≤ 1)%nat ∧
  (∀ i r, threads s !! i = Some (Done r) →
     ∃ self, r = Return (PySettings self) ∧
             _settings (shared s) = PySettings self ∧ constructions s = 1) ∧
  (all_done s = false →
     ∃ i s', step example_obsolete_names bare_world i s = Some s' ∧
             work_left s' < work_left s) ∧
  (∃ rest, all_done (run example_obsolete_names bare_world (alternating_schedule ++ rest)
                       (start 2 empty_state)) = true) ∧
  (0 < 2 → all_done s = true →
     constructions s = 1 ∧
     ∃ self, threads s = replicate 2 (Done (Return (PySettings self)))).
Proof.
  assert (constructible bare_world) as Hok by (left; reflexivity).
  split; [exact Hok|]. split; [reflexivity|]. split; [reflexivity|].
  exact (one_construction_for_concurrent_callers example_obsolete_names bare_world
           2 alternating_schedule empty_state Hok eq_refl eq_refl).
Defined.

(** C4 without the proviso fails: when the override file does not load, each
    of two callers runs the constructor, and neither receives an instance. *)
Lemma failed_construction_is_repeated :
  ¬ first_callers_share_one_instance example_obsolete_names malformed_world.
Proof.
  intros Hclaim.
  destruct (Hclaim 2 one_after_the_other empty_state)
    as [Hone _]; [lia|reflexivity|reflexivity|reflexivity|].
  vm_compute in Hone. discriminate Hone.
Qed.




Lemma missing_file_falls_back_to_defaults_witness :
  isfile bare_world (resolve_settings_path bare_world (PyStr "/srv/none.py")) = Return false ∧
  ∃ self st',
    Settings_call example_obsolete_names bare_world (PyStr "/srv/none.py") empty_state =
      (Return (PySettings self), st') ∧
    instances st' !! self = Some {| _override_settings := PyNone |} ∧
    log st' =
      (log empty_state ++
       [(INFO, "Override settings for pynamo not available " +:+
               py_str (resolve_settings_path bare_world (PyStr "/srv/none.py")));
        (INFO, "Using Default settings value")])%list ∧
    ∀ ops key,
      Settings___getattr__ self key (exec_ops example_obsolete_names bare_world ops st') =
        (Return (default PyNone (DEFAULT_SETTINGS !! key)),
         exec_ops example_obsolete_names bare_world ops st').
Proof.
  split; [reflexivity|].
  apply (missing_file_falls_back_to_defaults example_obsolete_names bare_world
           (PyStr "/srv/none.py") empty_state).
  reflexivity.
Defined.

Lemma override_reference_never_changes_witness :
  instances override_state !! 0 = Some {| _override_settings := PyModule 0 |} ∧
  (∀ op, instances (exec_op example_obsolete_names second_world op override_state).2 !! 0
         = Some {| _override_settings := PyModule 0 |}) ∧
  (∀ ops, instances (exec_ops example_obsolete_names second_world ops override_state) !! 0
          = Some {| _override_settings := PyModule 0 |}) ∧
  (∀ t n t' st' n',
     thread_step example_obsolete_names second_world t override_state n = Some (t', st', n') →
     instances st' !! 0 = Some {| _override_settings := PyModule 0 |}) ∧
  (∀ self' key, (Settings___getattr__ self' key override_state).2 = override_state).
Proof.
  split; [reflexivity|].
  apply (override_reference_never_changes example_obsolete_names second_world
           override_state 0 {| _override_settings := PyModule 0 |}).
  reflexivity.
Defined.

Lemma explicit_path_ignores_environment_witness :
  truthy (PyStr "/srv/none.py") = true ∧
  isfile second_world (PyStr "/srv/none.py") = isfile bare_world (PyStr "/srv/none.py") ∧
  source second_world (PyStr "/srv/none.py") = source bare_world (PyStr "/srv/none.py") ∧
  Settings_call example_obsolete_names second_world (PyStr "/srv/none.py") empty_state =
  Settings_call example_obsolete_names bare_world (PyStr "/srv/none.py") empty_state ∧
  truthy (PyStr "") = false ∧
  Settings___init__ example_obsolete_names second_world 0 (PyStr "") empty_state =
  init_from_path example_obsolete_names second_world 0 (PyStr "/srv/pynamodb.py") empty_state ∧
  Settings_call example_obsolete_names second_world (PyStr "") empty_state =
  Settings_call example_obsolete_names second_world PyNone empty_state.
Proof.
  split; [reflexivity|]. split; [reflexivity|]. split; [reflexivity|]. split.
  - apply (proj1 (explicit_path_ignores_environment example_obsolete_names bare_world
                    (PyStr "/srv/none.py") empty_state)); reflexivity.
  - split; [reflexivity|]. split.
    + apply (proj1 (proj2 (explicit_path_ignores_environment example_obsolete_names
                             second_world (PyStr "") empty_state))); reflexivity.
    + apply (proj2 (proj2 (explicit_path_ignores_environment example_obsolete_names
                             second_world (PyStr "") empty_state))); reflexivity.
Defined.
(** ** Runs of the code *)

Example construction_without_file :
  Settings_call example_obsolete_names bare_world PyNone empty_state =
    (Return (PySettings 0), bare_state).
Proof. vm_compute. reflexivity. Qed.

Example construction_with_file :
  Settings_call example_obsolete_names override_world PyNone empty_state =
    (Return (PySettings 0), override_state).
Proof. vm_compute. reflexivity. Qed.

(** With [PYNAMODB_CONFIG] unset and no file at the default path,
    [Settings.default.region] is ["us-east-1"]. *)
Example default_region_end_to_end :
  ((let* s := current example_obsolete_names bare_world in
    getattr_of s "region") empty_state).1 = Return (PyStr "us-east-1").
Proof. vm_compute. reflexivity. Qed.

(** With an override file that sets [region = "eu-west-1"],
    [Settings.default.region] is ["eu-west-1"] and
    [Settings.default.max_retry_attempts] is still [3]. *)
Example override_region_end_to_end :
  ((let* s := current example_obsolete_names override_world in
    getattr_of s "region") empty_state).1 = Return (PyStr "eu-west-1") ∧
  ((let* s := current example_obsolete_names override_world in
    getattr_of s "max_retry_attempts") empty_state).1 = Return (PyInt 3).
Proof. split; vm_compute; reflexivity. Qed.

(** Two first callers, thread by thread in turn: one construction, one
    instance for both. *)
Example two_callers_alternating :
  let s := run example_obsolete_names bare_world alternating_schedule (start 2 empty_state) in
  threads s = [Done (Return (PySettings 0)); Done (Return (PySettings 0))] ∧
  constructions s = 1 ∧ _settings (shared s) = PySettings 0.
Proof. vm_compute. done. Qed.

(** The loader executes every override file in the one module registered as
    [__pynamodb_override_settings__]: constructing a second [Settings] leaves
    the reference held by the first instance as it is, and adds the names of
    the second file to the module both refer to. *)
Example second_construction_shares_the_module :
  let st := (Settings_call example_obsolete_names second_world PyNone override_state).2 in
  instances st !! 0 = Some {| _override_settings := PyModule 0 |} ∧
  instances st !! 1 = Some {| _override_settings := PyModule 0 |} ∧
  (Settings___getattr__ 0 "max_retry_attempts" override_state).1 = Return (PyInt 3) ∧
  (Settings___getattr__ 0 "max_retry_attempts" st).1 = Return (PyInt 7).
Proof. vm_compute. done. Qed.

(** * Witnesses of the further properties *)

Lemma replace_then_current_witness :
  _lock bare_state = false ∧
  (replace (PySettings 0) bare_state).1 = Return tt ∧
  (replace (PySettings 0) bare_state).2 = set__settings (PySettings 0) bare_state ∧
  current example_obsolete_names bare_world (replace (PySettings 0) bare_state).2 =
    (Return (PySettings 0), (replace (PySettings 0) bare_state).2).
Proof.
  split; [reflexivity|].
  apply (replace_then_current example_obsolete_names bare_world 0 bare_state).
  reflexivity.
Defined.

Lemma first_access_constructs_and_installs_witness :
  constructible bare_world ∧ _settings empty_state = PyNone ∧ _lock empty_state = false ∧
  ∃ self st',
    current example_obsolete_names bare_world empty_state = (Return (PySettings self), st') ∧
    (Settings_call example_obsolete_names bare_world PyNone empty_state).1 =
      Return (PySettings self) ∧
    st' = set__settings (PySettings self)
            (Settings_call example_obsolete_names bare_world PyNone empty_state).2 ∧
    instances empty_state !! self = None ∧
    is_Some (instances st' !! self) ∧
    _settings st' = PySettings self ∧ _lock st' = false.
Proof.
  assert (constructible bare_world) as Hok by (left; reflexivity).
  split; [exact Hok|]. split; [reflexivity|]. split; [reflexivity|].
  exact (first_access_constructs_and_installs example_obsolete_names bare_world
           empty_state Hok eq_refl eq_refl).
Defined.

Lemma current_is_idempotent_witness :
  _lock empty_state = false ∧
  current example_obsolete_names bare_world empty_state =
    (Return (PySettings 0), installed_state) ∧
  _settings installed_state = PySettings 0 ∧ _lock installed_state = false ∧
  current example_obsolete_names bare_world installed_state =
    (Return (PySettings 0), installed_state).
Proof.
  assert (current example_obsolete_names bare_world empty_state =
            (Return (PySettings 0), installed_state)) as Hcur
    by (vm_compute; reflexivity).
  split; [reflexivity|]. split; [exact Hcur|].
  exact (current_is_idempotent example_obsolete_names bare_world empty_state
           (PySettings 0) installed_state eq_refl Hcur).
Defined.


Lemma explicit_construction_is_not_the_singleton_witness :
  constructible bare_world ∧ _settings empty_state = PyNone ∧ _lock empty_state = false ∧
  Settings_call example_obsolete_names bare_world (PyStr "/srv/none.py") empty_state =
    (Return (PySettings 0),
     (Settings_call example_obsolete_names bare_world (PyStr "/srv/none.py") empty_state).2) ∧
  ∃ self' st2,
    current example_obsolete_names bare_world
      (Settings_call example_obsolete_names bare_world (PyStr "/srv/none.py") empty_state).2 =
      (Return (PySettings self'), st2) ∧
    self' ≠ 0.
Proof.
  assert (constructible bare_world) as Hok by (left; reflexivity).
  assert (Settings_call example_obsolete_names bare_world (PyStr "/srv/none.py") empty_state =
            (Return (PySettings 0),
             (Settings_call example_obsolete_names bare_world
                (PyStr "/srv/none.py") empty_state).2)) as Hcall
    by (vm_compute; reflexivity).
  split; [exact Hok|]. split; [reflexivity|]. split; [reflexivity|].
  split; [exact Hcall|].
  exact (proj2 (proj2 (explicit_construction_is_not_the_singleton example_obsolete_names
                         bare_world (PyStr "/srv/none.py") empty_state 0 _
                         Hok eq_refl eq_refl Hcall))).
Defined.

Lemma slot_holds_none_or_an_instance_witness :
  slot_valid empty_state ∧
  slot_valid (exec_ops example_obsolete_names override_world
                [OpCurrent; OpReplace (PyStr "eu-west-1"); OpNew PyNone; OpReplace (PySettings 1)]
                empty_state) ∧
  ∀ v st',
    current example_obsolete_names override_world
      (exec_ops example_obsolete_names override_world
         [OpCurrent; OpReplace (PyStr "eu-west-1"); OpNew PyNone; OpReplace (PySettings 1)]
         empty_state) = (Return v, st') →
    isinstance_Settings v = true.
Proof.
  assert (slot_valid empty_state) as Hvalid by (left; reflexivity).
  split; [exact Hvalid|].
  exact (slot_holds_none_or_an_instance example_obsolete_names override_world
           [OpCurrent; OpReplace (PyStr "eu-west-1"); OpNew PyNone; OpReplace (PySettings 1)]
           empty_state Hvalid).
Defined.

Lemma loads_reuse_the_registered_module_witness :
  _load_module second_world "__pynamodb_override_settings__"
    (PyStr default_settings_path) empty_state =
    (Return (PyModule 0),
     (_load_module second_world "__pynamodb_override_settings__"
        (PyStr default_settings_path) empty_state).2) ∧
  ∃ st1 st2,
    _load_module second_world "__pynamodb_override_settings__"
      (PyStr "/srv/pynamodb.py") st1 = (Return (PyModule 0), st2) ∧
    sys_modules st2 = sys_modules st1 ∧
    namespace_of st2 (PyModule 0) !! "region" = Some (PyStr "eu-west-1") ∧
    namespace_of st2 (PyModule 0) !! "max_retry_attempts" = Some (PyInt 7).
Proof.
  set (st1 := (_load_module second_world "__pynamodb_override_settings__"
                 (PyStr default_settings_path) empty_state).2).
  set (st2 := (_load_module second_world "__pynamodb_override_settings__"
                 (PyStr "/srv/pynamodb.py") st1).2).
  assert (_load_module second_world "__pynamodb_override_settings__"
            (PyStr default_settings_path) empty_state = (Return (PyModule 0), st1)) as H1
    by (vm_compute; reflexivity).
  assert (_load_module second_world "__pynamodb_override_settings__"
            (PyStr "/srv/pynamodb.py") st1 = (Return (PyModule 0), st2)) as H2
    by (vm_compute; reflexivity).
  split; [exact H1|]. exists st1, st2. split; [exact H2|].
  destruct (loads_reuse_the_registered_module second_world
              "__pynamodb_override_settings__" (PyStr default_settings_path)
              (PyStr "/srv/pynamodb.py") empty_state _ _ _ _ H1 H2)
    as (_ & Hsys & defs2 & Hsrc & Hns).
  split; [exact Hsys|]. injection Hsrc as <-.
  split; rewrite Hns; vm_compute; reflexivity.
Defined.

Lemma override_state_shares_module : shares_module override_state.
Proof.
  intros self o m Hself Hov. unfold override_state in Hself. cbn [instances] in Hself.
  apply lookup_singleton_Some in Hself as [<- <-]. injection Hov as <-. reflexivity.
Qed.

Lemma override_instances_share_one_module_witness :
  shares_module override_state ∧
  shares_module (exec_ops example_obsolete_names second_world
                   [OpNew PyNone; OpCurrent] override_state) ∧
  ∀ self1 self2 o1 o2 m1 m2,
    instances (exec_ops example_obsolete_names second_world
                 [OpNew PyNone; OpCurrent] override_state) !! self1 = Some o1 →
    instances (exec_ops example_obsolete_names second_world
                 [OpNew PyNone; OpCurrent] override_state) !! self2 = Some o2 →
    _override_settings o1 = PyModule m1 → _override_settings o2 = PyModule m2 →
    m1 = m2.
Proof.
  split; [exact override_state_shares_module|].
  exact (override_instances_share_one_module example_obsolete_names second_world
           [OpNew PyNone; OpCurrent] override_state override_state_shares_module).
Defined.

Lemma later_file_rebinds_earlier_instances_witness :
  shares_module override_state ∧
  instances override_state !! 0 = Some {| _override_settings := PyModule 0 |} ∧
  isfile second_world (resolve_settings_path second_world PyNone) = Return true ∧
  source second_world (resolve_settings_path second_world PyNone) =
    Defines (<["max_retry_attempts" := PyInt 7]> ∅) ∧
  (Settings___getattr__ 0 "max_retry_attempts" override_state).1 = Return (PyInt 3) ∧
  (Settings___getattr__ 0 "max_retry_attempts"
     (Settings_call example_obsolete_names second_world PyNone override_state).2).1 =
    Return (PyInt 7) ∧
  (Settings___getattr__ 0 "region"
     (Settings_call example_obsolete_names second_world PyNone override_state).2).1 =
  (Settings___getattr__ 0 "region" override_state).1.
Proof.
  split; [exact override_state_shares_module|]. split; [reflexivity|].
  split; [reflexivity|]. split; [reflexivity|]. split; [reflexivity|]. split.
  - apply (proj1 (later_file_rebinds_earlier_instances example_obsolete_names second_world
                    PyNone (<["max_retry_attempts" := PyInt 7]> ∅) 0
                    {| _override_settings := PyModule 0 |} 0 "max_retry_attempts"
                    override_state override_state_shares_module
                    eq_refl eq_refl eq_refl eq_refl)).
    reflexivity.
  - apply (proj2 (later_file_rebinds_earlier_instances example_obsolete_names second_world
                    PyNone (<["max_retry_attempts" := PyInt 7]> ∅) 0
                    {| _override_settings := PyModule 0 |} 0 "region"
                    override_state override_state_shares_module
                    eq_refl eq_refl eq_refl eq_refl)).
    reflexivity.
Defined.

Lemma new_instance_inherits_earlier_names_witness :
  sys_modules override_state !! override_module_name = Some 0 ∧
  isfile second_world (resolve_settings_path second_world PyNone) = Return true ∧
  get_after_construction example_obsolete_names second_world PyNone "session_cls"
    override_state = Return (PyStr "requests.Session") ∧
  ∃ emitted,
    warnings (Settings_call example_obsolete_names second_world PyNone override_state).2 =
      (warnings override_state ++ emitted)%list ∧
    ("session_cls" ∈ example_obsolete_names → obsolete_warning "session_cls" ∈ emitted).
Proof.
  split; [reflexivity|]. split; [reflexivity|].
  apply (new_instance_inherits_earlier_names example_obsolete_names second_world
           PyNone (<["max_retry_attempts" := PyInt 7]> ∅) 0
           (<["region" := PyStr "eu-west-1"]>
            (<["session_cls" := PyStr "requests.Session"]> ∅))
           "session_cls" (PyStr "requests.Session") override_state);
    reflexivity.
Defined.

Lemma at_most_one_thread_inside_witness :
  _lock empty_state = false ∧
  let s := run example_obsolete_names malformed_world alternating_schedule
             (start 2 empty_state) in
  (∀ i j t t', threads s !! i = Some t → threads s !! j = Some t' →
     holds_lock t = true → holds_lock t' = true → i = j) ∧
  (_lock (shared s) = true ↔ ∃ i t, threads s !! i = Some t ∧ holds_lock t = true).
Proof.
  split; [reflexivity|].
  exact (at_most_one_thread_inside example_obsolete_names malformed_world
           2 alternating_schedule empty_state eq_refl).
Defined.

Lemma filled_slot_is_read_without_the_lock_witness :
  truthy (_settings (set__lock true installed_state)) = true ∧
  current example_obsolete_names bare_world (set__lock true installed_state) =
    (Return (PySettings 0), set__lock true installed_state) ∧
  threads busy_system !! 0 = Some AtFastRead ∧
  run example_obsolete_names bare_world [0; 0] busy_system =
    {| shared := shared busy_system;
       threads := [Done (Return (PySettings 0)); AtReturn];
       constructions := 1 |}.
Proof.
  split; [reflexivity|]. split.
  - apply (proj1 (filled_slot_is_read_without_the_lock example_obsolete_names bare_world)
             (set__lock true installed_state)).
    reflexivity.
  - split; [reflexivity|].
    apply (proj2 (filled_slot_is_read_without_the_lock example_obsolete_names bare_world)
             0 busy_system); reflexivity.
Defined.

Lemma failed_constructions_are_all_repeated_witness :
  construction_raises malformed_world (LoadError "SyntaxError") ∧
  _settings empty_state = PyNone ∧
  let s := run example_obsolete_names malformed_world one_after_the_other
             (start 2 empty_state) in
  _settings (shared s) = PyNone ∧
  (∀ i r, threads s !! i = Some (Done r) → r = Raise (LoadError "SyntaxError")) ∧
  (all_done s = true → constructions s = 2).
Proof.
  assert (construction_raises malformed_world (LoadError "SyntaxError")) as Hfail
    by (right; split; reflexivity).
  split; [exact Hfail|]. split; [reflexivity|].
  exact (failed_constructions_are_all_repeated example_obsolete_names malformed_world
           (LoadError "SyntaxError") 2 one_after_the_other empty_state Hfail eq_refl).
Defined.

Lemma set_variable_hides_the_default_path_witness :
  truthy PyNone = false ∧
  environ empty_variable_world !! "PYNAMODB_CONFIG" = Some "" ∧
  environ empty_variable_bare_world !! "PYNAMODB_CONFIG" = Some "" ∧
  isfile empty_variable_world (PyStr default_settings_path) = Return true ∧
  isfile empty_variable_world (PyStr "") = Return false ∧
  Settings_call example_obsolete_names empty_variable_world PyNone empty_state =
  Settings_call example_obsolete_names empty_variable_bare_world PyNone empty_state ∧
  ∃ self,
    (Settings_call example_obsolete_names empty_variable_world PyNone empty_state).1 =
      Return (PySettings self) ∧
    instances (Settings_call example_obsolete_names empty_variable_world PyNone
                 empty_state).2 !! self =
      Some {| _override_settings := PyNone |}.
Proof.
  split; [reflexivity|]. split; [reflexivity|]. split; [reflexivity|].
  split; [reflexivity|]. split; [reflexivity|].
  destruct (set_variable_hides_the_default_path example_obsolete_names
              empty_variable_world empty_variable_bare_world PyNone "" empty_state
              eq_refl eq_refl eq_refl eq_refl eq_refl) as [Hsame Hnone].
  split; [exact Hsame|]. apply Hnone. reflexivity.
Defined.

Lemma files_world_isfile_returns env files p : isfile (files_world env files) p ≠ Block.
Proof. by destruct p. Qed.

Lemma lock_is_always_released_witness :
  (∀ p, isfile malformed_world p ≠ Block) ∧ _lock empty_state = false ∧
  _lock (exec_ops example_obsolete_names malformed_world
           [OpCurrent; OpReplace (PySettings 0); OpNew PyNone] empty_state) = false ∧
  ∀ op, (exec_op example_obsolete_names malformed_world op
           (exec_ops example_obsolete_names malformed_world
              [OpCurrent; OpReplace (PySettings 0); OpNew PyNone] empty_state)).1 ≠ Block.
Proof.
  assert (∀ p, isfile malformed_world p ≠ Block) as Hstat
    by apply files_world_isfile_returns.
  split; [exact Hstat|]. split; [reflexivity|].
  exact (lock_is_always_released example_obsolete_names malformed_world
           [OpCurrent; OpReplace (PySettings 0); OpNew PyNone] empty_state Hstat eq_refl).
Defined.
